(** * maib e-commerce SDK (Python): request validation, response envelope
      handling and callback-signature verification

    A shallow embedding of the five modules of [maib_ecommerce_sdk]:

    - [maib_sdk.py]  (class [MaibSdk])   and its older twin
      [maibsdk.py]   (class [MAIBSDK]);
    - [maib_api.py]  (class [MaibApi])   and its older twin
      [maibapi.py]   (class [MAIBAPI]);
    - [maibauth.py]  (class [MAIBAuth]).

    Python objects are values of [pyval]; a call either returns a value or
    raises, which is the type [result].  The interpreter's builtins that the
    SDK relies on ([len], [isinstance], truthiness, [str], numeric [<],
    [sorted], [str.join], [str.encode], [hashlib.sha256],
    [base64.b64encode], [hmac.compare_digest]) are modelled next to the code
    that uses them. *)

From Stdlib Require Import ZArith List String Ascii Bool Lia.
From Stdlib Require Import Sorting.Permutation Sorting.Sorted.
From Stdlib Require Import Floats.SpecFloat Numbers.DecimalString.
Import ListNotations.

Set Warnings "-register-all".

Local Open Scope string_scope.
Local Open Scope Z_scope.
Local Open Scope list_scope.

(** * Python values *)

(** A [str] is a sequence of code points; the model keeps the code points
    U+0000..U+00FF, one [ascii] each, so [String.length] is [len].
    A [float] is an IEEE-754 value in the standard library's [spec_float]
    form ([m * 2^e], infinities, NaN).  A [dict] keeps its insertion order
    and is a list of bindings. *)
Inductive pyval : Type :=
| VNone
| VBool (b : bool)
| VInt (n : Z)
| VFloat (f : spec_float)
| VStr (s : string)
| VList (l : list pyval)
| VDict (d : list (string * pyval)).

Definition dict : Type := list (string * pyval).

(** Exceptions: the two classes the SDK declares, the builtin ones its code
    can run into, and those of the HTTP library. *)
Inductive exn : Type :=
| MaibPaymentException (msg : string)
| MaibTokenException (msg : string)
| TypeError
| AttributeError
| KeyError
| IndexError
| RequestException.

Inductive result (A : Type) : Type :=
| Ok (a : A)
| Raise (e : exn).

Arguments Ok {A} a.
Arguments Raise {A} e.

Definition bind {A B : Type} (m : result A) (k : A -> result B) : result B :=
  match m with
  | Ok a => k a
  | Raise e => Raise e
  end.

Declare Scope py_scope.
Delimit Scope py_scope with py.
Notation "x <- m ;; k" := (bind m (fun x => k))
  (at level 61, m at next level, right associativity) : py_scope.
Notation "m ;; k" := (bind m (fun _ => k))
  (at level 61, right associativity) : py_scope.
Local Open Scope py_scope.

(** [if c: raise e] *)
Definition raise_if (c : bool) (e : exn) : result unit :=
  if c then Raise e else Ok tt.

(** * Builtins *)

Module Builtins.

(** [x is None] *)
Definition is_none (v : pyval) : bool :=
  match v with VNone => true | _ => false end.

(** [x is True] *)
Definition is_True (v : pyval) : bool :=
  match v with VBool true => true | _ => false end.

(** [isinstance(x, str)] *)
Definition isinstance_str (v : pyval) : bool :=
  match v with VStr _ => true | _ => false end.

(** [isinstance(x, int)]: [bool] is a subclass of [int]. *)
Definition isinstance_int (v : pyval) : bool :=
  match v with VInt _ | VBool _ => true | _ => false end.

(** [isinstance(x, (float, int))] *)
Definition isinstance_float_int (v : pyval) : bool :=
  match v with VFloat _ | VInt _ | VBool _ => true | _ => false end.

(** [isinstance(x, list)] *)
Definition isinstance_list (v : pyval) : bool :=
  match v with VList _ => true | _ => false end.

(** [len(x)]; numbers and [None] have no length. *)
Definition len (v : pyval) : result Z :=
  match v with
  | VStr s => Ok (Z.of_nat (String.length s))
  | VList l => Ok (Z.of_nat (List.length l))
  | VDict d => Ok (Z.of_nat (List.length d))
  | _ => Raise TypeError
  end.

(** [len] of a value already known to be a [str] or a [list]. *)
Definition len_of (v : pyval) : Z :=
  match len v with Ok n => n | Raise _ => 0 end.

(** Numbers as extended dyadic rationals, so that [int]/[float] comparisons
    are exact, as they are in Python. *)
Inductive xnum : Type :=
| XNaN
| XInf (negative : bool)
| XFin (m e : Z).

Definition xnum_of_float (f : spec_float) : xnum :=
  match f with
  | S754_nan => XNaN
  | S754_infinity s => XInf s
  | S754_zero _ => XFin 0 0
  | S754_finite s m e => XFin (if s then Z.neg m else Z.pos m) e
  end.

Definition xnum_of (v : pyval) : option xnum :=
  match v with
  | VBool b => Some (XFin (if b then 1 else 0) 0)
  | VInt n => Some (XFin n 0)
  | VFloat f => Some (xnum_of_float f)
  | _ => None
  end.

Definition xnum_compare (a b : xnum) : option comparison :=
  match a, b with
  | XNaN, _ | _, XNaN => None
  | XInf s1, XInf s2 =>
      Some (match s1, s2 with
            | true, false => Lt
            | false, true => Gt
            | _, _ => Eq
            end)
  | XInf s, XFin _ _ => Some (if s then Lt else Gt)
  | XFin _ _, XInf s => Some (if s then Gt else Lt)
  | XFin m1 e1, XFin m2 e2 =>
      let e := Z.min e1 e2 in
      Some (Z.compare (m1 * 2 ^ (e1 - e)) (m2 * 2 ^ (e2 - e)))
  end.

(** [a < b] on numbers. *)
Definition num_lt (a b : pyval) : bool :=
  match xnum_of a, xnum_of b with
  | Some x, Some y =>
      match xnum_compare x y with Some Lt => true | _ => false end
  | _, _ => false
  end.

(** [a == b] on numbers. *)
Definition num_eq (a b : pyval) : bool :=
  match xnum_of a, xnum_of b with
  | Some x, Some y =>
      match xnum_compare x y with Some Eq => true | _ => false end
  | _, _ => false
  end.

(** The literal [0.01]: the binary64 value nearest to 1/100. *)
Definition float_0_01 : spec_float := S754_finite false 5764607523034235 (-59).

(** The literal [0.999]. *)
Definition float_0_999 : spec_float := S754_finite false 8998192055486251 (-53).

(** Truthiness, as [not x] and [if x] use it. *)
Definition truthy (v : pyval) : bool :=
  match v with
  | VNone => false
  | VBool b => b
  | VInt n => negb (n =? 0)
  | VFloat f =>
      match xnum_of_float f with XFin 0 _ => false | _ => true end
  | VStr s => negb (String.length s =? 0)%nat
  | VList l => negb (List.length l =? 0)%nat
  | VDict d => negb (List.length d =? 0)%nat
  end.

(** [d.get(k)]: the value bound to [k], [None] when there is none. *)
Fixpoint lookup (d : dict) (k : string) : option pyval :=
  match d with
  | [] => None
  | (k', v) :: d' => if String.eqb k' k then Some v else lookup d' k
  end.

Definition dict_get (d : dict) (k : string) : pyval :=
  match lookup d k with Some v => v | None => VNone end.

(** [x.get(k)] on an arbitrary object: only a [dict] has the method. *)
Definition get (x : pyval) (k : string) : result pyval :=
  match x with
  | VDict d => Ok (dict_get d k)
  | _ => Raise AttributeError
  end.

(** [x[0]] *)
Definition first_item (x : pyval) : result pyval :=
  match x with
  | VList (v :: _) => Ok v
  | VList [] => Raise IndexError
  | VStr (String c _) => Ok (VStr (String c EmptyString))
  | VStr EmptyString => Raise IndexError
  | VDict _ => Raise KeyError
  | _ => Raise TypeError
  end.

(** [str(n)] for an [int]. *)
Definition str_of_int (n : Z) : string :=
  NilZero.string_of_int (Z.to_int n).

(** [str(x)], which is also what an f-string field [{x}] prints.  On a
    [float], a [list] and a [dict] it is the interpreter's [repr] (shortest
    round-trip decimals, quoting of nested strings): that function is not
    part of the SDK and is taken as given. *)
Definition str (repr : pyval -> string) (v : pyval) : string :=
  match v with
  | VNone => "None"
  | VBool true => "True"
  | VBool false => "False"
  | VInt n => str_of_int n
  | VStr s => s
  | VFloat _ | VList _ | VDict _ => repr v
  end.

(** [x.items()] *)
Definition items (x : pyval) : result dict :=
  match x with
  | VDict d => Ok d
  | _ => Raise AttributeError
  end.

(** [sorted(d.items())].  Items are (key, value) tuples and a [dict] has no
    two equal keys, so the order of two items is the code-point order of
    their keys. *)
Fixpoint insert_item (x : string * pyval) (l : dict) : dict :=
  match l with
  | [] => [x]
  | y :: l' =>
      if String.leb (fst x) (fst y) then x :: y :: l'
      else y :: insert_item x l'
  end.

Fixpoint sorted (l : dict) : dict :=
  match l with
  | [] => []
  | x :: l' => insert_item x (sorted l')
  end.

(** [d[k] = v]: an existing key keeps its place, a new one goes last. *)
Fixpoint setitem (d : dict) (k : string) (v : pyval) : dict :=
  match d with
  | [] => [(k, v)]
  | (k', v') :: d' =>
      if String.eqb k' k then (k', v) :: d' else (k', v') :: setitem d' k v
  end.

(** [{key: f(value) for key, value in l}] *)
Definition dict_comprehension (f : pyval -> pyval) (l : dict) : dict :=
  fold_left (fun d kv => setitem d (fst kv) (f (snd kv))) l [].

(** [list(d.values())] *)
Definition values (d : dict) : list pyval := map snd d.

(** [sep.join(l)]: every element has to be a [str]. *)
Fixpoint str_items (l : list pyval) : result (list string) :=
  match l with
  | [] => Ok []
  | VStr s :: l' => ss <- str_items l' ;; Ok (s :: ss)
  | _ :: _ => Raise TypeError
  end.

Definition join (sep : string) (l : list pyval) : result string :=
  ss <- str_items l ;; Ok (String.concat sep ss).

(** [a == b] where [a] is a [str]. *)
Definition str_eq (a : string) (b : pyval) : bool :=
  match b with
  | VStr s => String.eqb a s
  | _ => false
  end.

End Builtins.

(** * [str.encode], [hashlib.sha256] and [base64.b64encode] *)

Module Codec.

(** Bytes are integers in [0, 256). *)
Definition bytes : Type := list Z.

Definition code (c : ascii) : Z := Z.of_nat (nat_of_ascii c).

Definition chr (b : Z) : ascii := ascii_of_nat (Z.to_nat b).

(** [s.encode()]: UTF-8.  A code point below U+0080 is one byte, the others
    of this model (up to U+00FF) are two.  Python raises UnicodeEncodeError
    on a lone surrogate (U+D800..U+DFFF); the strings of this model hold
    none, so the function is total here and nothing below is claimed about
    strings with surrogates. *)
Definition utf8_char (c : ascii) : bytes :=
  let n := code c in
  if n <? 128 then [n] else [192 + Z.shiftr n 6; 128 + Z.land n 63].

Fixpoint encode (s : string) : bytes :=
  match s with
  | EmptyString => []
  | String c s' => utf8_char c ++ encode s'
  end.

(** [b.decode()] of bytes that are ASCII. *)
Fixpoint decode (b : bytes) : string :=
  match b with
  | [] => EmptyString
  | x :: b' => String (chr x) (decode b')
  end.

(** ** SHA-256 (FIPS 180-4), on 32-bit words held in [Z]. *)

Definition mask32 : Z := 4294967295.

Definition add32 (x y : Z) : Z := (x + y) mod 4294967296.

Definition rotr (n x : Z) : Z :=
  Z.lor (Z.shiftr x n) (Z.land (Z.shiftl x (32 - n)) mask32).

Definition xor3 (x y z : Z) : Z := Z.lxor (Z.lxor x y) z.

Definition Ch (x y z : Z) : Z :=
  Z.lxor (Z.land x y) (Z.land (Z.lxor x mask32) z).

Definition Maj (x y z : Z) : Z :=
  xor3 (Z.land x y) (Z.land x z) (Z.land y z).

Definition bsig0 (x : Z) : Z := xor3 (rotr 2 x) (rotr 13 x) (rotr 22 x).
Definition bsig1 (x : Z) : Z := xor3 (rotr 6 x) (rotr 11 x) (rotr 25 x).
Definition ssig0 (x : Z) : Z := xor3 (rotr 7 x) (rotr 18 x) (Z.shiftr x 3).
Definition ssig1 (x : Z) : Z := xor3 (rotr 17 x) (rotr 19 x) (Z.shiftr x 10).

(** The constants of FIPS 180-4 by their definition: the first 32 bits of
    the fractional parts of the cube roots ([K256]) and of the square roots
    ([H256]) of the first primes. *)
Definition is_prime (n : Z) : bool :=
  forallb (fun d => negb (n mod Z.of_nat d =? 0)) (seq 2 (Z.to_nat n - 2)).

Definition primes_upto (n : nat) : list Z :=
  filter is_prime (map Z.of_nat (seq 2 (n - 1))).

(** The integer cube root, one bit at a time from the top. *)
Definition cube_root (n : Z) : Z :=
  fold_left
    (fun r b => let r' := r + 2 ^ Z.of_nat b in
                if r' * r' * r' <=? n then r' else r)
    (rev (seq 0 40)) 0.

Definition K256 : list Z :=
  Eval vm_compute in
    map (fun p => cube_root (p * 2 ^ 96) mod 2 ^ 32) (primes_upto 311).

Definition H256 : list Z :=
  Eval vm_compute in
    map (fun p => Z.sqrt (p * 2 ^ 64) mod 2 ^ 32) (primes_upto 19).

(** One round on the working variables [a..h], kept as a list of eight. *)
Definition round (k w : Z) (v : list Z) : list Z :=
  match v with
  | [a; b; c; d; e; f; g; h] =>
      let t1 := add32 (add32 (add32 h (bsig1 e)) (add32 (Ch e f g) k)) w in
      let t2 := add32 (bsig0 a) (Maj a b c) in
      [add32 t1 t2; a; b; c; add32 d t1; e; f; g]
  | _ => v
  end.

(** The 64 rounds; [w] is the sliding window of the next sixteen schedule
    words. *)
Fixpoint rounds (ks : list Z) (w : list Z) (v : list Z) : list Z :=
  match ks with
  | [] => v
  | k :: ks' =>
      let w0 := nth 0 w 0 in
      let next :=
        add32 (add32 (ssig1 (nth 14 w 0)) (nth 9 w 0))
              (add32 (ssig0 (nth 1 w 0)) w0) in
      rounds ks' (tl w ++ [next]) (round k w0 v)
  end.

Definition compress (h : list Z) (block : list Z) : list Z :=
  map (fun p => add32 (fst p) (snd p)) (combine h (rounds K256 block h)).

(** Big-endian words of a byte string whose length is a multiple of 4. *)
Fixpoint words (b : bytes) : list Z :=
  match b with
  | b0 :: b1 :: b2 :: b3 :: b' =>
      (((b0 * 256 + b1) * 256 + b2) * 256 + b3) :: words b'
  | _ => []
  end.

Definition word_bytes (w : Z) : bytes :=
  [Z.shiftr w 24; Z.land (Z.shiftr w 16) 255;
   Z.land (Z.shiftr w 8) 255; Z.land w 255].

Definition pad (m : bytes) : bytes :=
  let n := Z.of_nat (List.length m) in
  let bits := 8 * n in
  m ++ [128] ++ repeat 0 (Z.to_nat ((55 - n) mod 64))
    ++ word_bytes (Z.shiftr bits 32) ++ word_bytes (Z.land bits mask32).

(** Hash the schedule words block by block; [n] counts the blocks. *)
Fixpoint blocks (n : nat) (h : list Z) (ws : list Z) : list Z :=
  match n with
  | O => h
  | S n' => blocks n' (compress h (firstn 16 ws)) (skipn 16 ws)
  end.

(** [hashlib.sha256(m).digest()] *)
Definition sha256 (m : bytes) : bytes :=
  let ws := words (pad m) in
  flat_map word_bytes (blocks (List.length ws / 16) H256 ws).

(** ** Base64 (RFC 4648, standard alphabet, padded). *)

Definition b64_char (n : Z) : Z :=
  if n <? 26 then 65 + n
  else if n <? 52 then 97 + (n - 26)
  else if n <? 62 then 48 + (n - 52)
  else if n =? 62 then 43
  else 47.

(** [base64.b64encode(b)] *)
Fixpoint b64encode (b : bytes) : bytes :=
  match b with
  | [] => []
  | [x] =>
      [b64_char (Z.shiftr x 2); b64_char (Z.land (Z.shiftl x 4) 63); 61; 61]
  | [x; y] =>
      [b64_char (Z.shiftr x 2);
       b64_char (Z.land (Z.lor (Z.shiftl x 4) (Z.shiftr y 4)) 63);
       b64_char (Z.land (Z.shiftl y 2) 63); 61]
  | x :: y :: z :: b' =>
      [b64_char (Z.shiftr x 2);
       b64_char (Z.land (Z.lor (Z.shiftl x 4) (Z.shiftr y 4)) 63);
       b64_char (Z.land (Z.lor (Z.shiftl y 2) (Z.shiftr z 6)) 63);
       b64_char (Z.land z 63)] ++ b64encode b'
  end.

(** [s.isascii()]: every code point is below U+0080. *)
Fixpoint isascii (s : string) : bool :=
  match s with
  | EmptyString => true
  | String c s' => (code c <? 128) && isascii s'
  end.

(** [hmac.compare_digest(a, b)] on two [str]: a [TypeError] unless both are
    ASCII, else their equality (computed in constant time). *)
Definition compare_digest (a b : pyval) : result bool :=
  match a, b with
  | VStr x, VStr y =>
      if isascii x && isascii y then Ok (String.eqb x y) else Raise TypeError
  | _, _ => Raise TypeError
  end.

End Codec.

Import Builtins Codec.

(** * [maib_sdk.py]: class [MaibSdk] *)

Module MaibSdk.

Definition DEFAULT_BASE_URL : string := "https://api.maibmerchants.md/v1/".

Definition GET_TOKEN : string := "generate-token".
Definition DIRECT_PAY : string := "pay".
Definition HOLD : string := "hold".
Definition COMPLETE : string := "complete".
Definition REFUND : string := "refund".
Definition PAY_INFO : string := "pay-info".
Definition SAVE_REC : string := "savecard-recurring".
Definition EXE_REC : string := "execute-recurring".
Definition SAVE_ONECLICK : string := "savecard-oneclick".
Definition EXE_ONECLICK : string := "execute-oneclick".
Definition DELETE_CARD : string := "delete-card".

Definition missing_result_msg (endpoint : string) : string :=
  ("Invalid response received from server for endpoint " ++ endpoint
   ++ ": missing 'result' field.")%string.

Definition gateway_error_msg (endpoint message code : string) : string :=
  ("Error sending request to endpoint " ++ endpoint ++ ": " ++ message
   ++ " (" ++ code ++ ")")%string.

Definition malformed_msg (endpoint : string) : string :=
  ("Invalid response received from server for endpoint " ++ endpoint
   ++ ": missing 'ok' and 'errors' fields")%string.

Section Interpreter.

Variable repr : pyval -> string.

(** [handle_response(response, endpoint)] *)
Definition handle_response (response : pyval) (endpoint : string)
  : result pyval :=
  response_ok <- get response "ok" ;;
  if negb (is_none response_ok) && is_True response_ok then
    response_result <- get response "result" ;;
    if negb (is_none response_result) then Ok response_result
    else Raise (MaibPaymentException (missing_result_msg endpoint))
  else
    response_errors <- get response "errors" ;;
    if negb (is_none response_errors) then
      error <- first_item response_errors ;;
      message <- get error "errorMessage" ;;
      code <- get error "errorCode" ;;
      Raise (MaibPaymentException
               (gateway_error_msg endpoint (str repr message) (str repr code)))
    else Raise (MaibPaymentException (malformed_msg endpoint)).

(** [str(value) if value is not None else ''] *)
Definition str_or_empty (value : pyval) : pyval :=
  VStr (if negb (is_none value) then str repr value else "").

(** [base64.b64encode(hashlib.sha256(s.encode()).digest()).decode()] *)
Definition signature_of (sign_string : string) : string :=
  decode (b64encode (sha256 (encode sign_string))).

(** [validate_callback_signature(callback_data, signature_key)] *)
Definition validate_callback_signature (callback_data signature_key : pyval)
  : result bool :=
  raise_if (negb (truthy signature_key))
    (MaibPaymentException "Invalid signature key") ;;
  callback_signature <- get callback_data "signature" ;;
  callback_result <- get callback_data "result" ;;
  raise_if (negb (truthy callback_signature) || negb (truthy callback_result))
    (MaibPaymentException "Missing result or signature in callback data.") ;;
  result_items <- items callback_result ;;
  let sorted_callback_result :=
    dict_comprehension str_or_empty (sorted result_items) in
  let sorted_callback_values := values sorted_callback_result in
  let sorted_callback_values := sorted_callback_values ++ [signature_key] in
  sign_string <- join ":" sorted_callback_values ;;
  let calculated_signature := signature_of sign_string in
  compare_digest (VStr calculated_signature) callback_signature.

End Interpreter.

End MaibSdk.

(** * [maibsdk.py]: class [MAIBSDK], the older twin *)

Module MAIBSDK.

Definition GET_TOKEN : string := "generate-token".

Section Interpreter.

Variable repr : pyval -> string.

(** [handle_response(self, response, endpoint)]; the gateway-error message
    carries the literal text [$endpoint]. *)
Definition handle_response (response : pyval) (endpoint : string)
  : result pyval :=
  response_ok <- get response "ok" ;;
  if negb (is_none response_ok) && is_True response_ok then
    response_result <- get response "result" ;;
    if negb (is_none response_result) then Ok response_result
    else Raise (MaibPaymentException (MaibSdk.missing_result_msg endpoint))
  else
    response_errors <- get response "errors" ;;
    if negb (is_none response_errors) then
      error <- first_item response_errors ;;
      message <- get error "errorMessage" ;;
      code <- get error "errorCode" ;;
      Raise (MaibPaymentException
               (MaibSdk.gateway_error_msg "$endpoint"
                  (str repr message) (str repr code)))
    else Raise (MaibPaymentException (MaibSdk.malformed_msg endpoint)).

(** [callback_data['result']] *)
Definition getitem (x : pyval) (k : string) : result pyval :=
  match x with
  | VDict d =>
      match lookup d k with
      | Some v => Ok v
      | None => Raise KeyError
      end
  | _ => Raise TypeError
  end.

(** [validate_callback_signature(callback_data, signature_key)] *)
Definition validate_callback_signature (callback_data signature_key : pyval)
  : result bool :=
  callback_signature <- get callback_data "signature" ;;
  raise_if (negb (truthy callback_signature))
    (MaibPaymentException "Missing callback signature") ;;
  callback_result <- getitem callback_data "result" ;;
  result_items <- items callback_result ;;
  let sorted_callback_result :=
    dict_comprehension (fun value => VStr (str repr value))
      (sorted result_items) in
  let sorted_callback_values := values sorted_callback_result in
  let sorted_callback_values := sorted_callback_values ++ [signature_key] in
  sign_string <- join ":" sorted_callback_values ;;
  let calculated_signature := MaibSdk.signature_of sign_string in
  Ok (str_eq calculated_signature callback_signature).

End Interpreter.

End MAIBSDK.

(** * [maib_api.py]: class [MaibApi] *)

Module MaibApi.

Definition REQUIRED_PAY_PARAMS : list string :=
  ["amount"; "currency"; "clientIp"].
Definition REQUIRED_PAYID_PARAMS : list string := ["payId"].
Definition REQUIRED_SAVE_PARAMS : list string :=
  ["billerExpiry"; "currency"; "clientIp"].
Definition REQUIRED_EXECUTE_RECURRING_PARAMS : list string :=
  ["billerId"; "amount"; "currency"].
Definition REQUIRED_EXECUTE_ONECLICK_PARAMS : list string :=
  ["billerId"; "amount"; "currency"; "clientIp"].

(** The operations that take a parameter bag, with the required parameters
    their entry points pass to [__execute_pay_operation]. *)
Inductive pay_operation : Type :=
| pay | hold | complete | refund
| save_recurring | execute_recurring | save_oneclick | execute_oneclick.

Definition required_params_of (op : pay_operation) : list string :=
  match op with
  | pay | hold => REQUIRED_PAY_PARAMS
  | complete | refund => REQUIRED_PAYID_PARAMS
  | save_recurring | save_oneclick => REQUIRED_SAVE_PARAMS
  | execute_recurring => REQUIRED_EXECUTE_RECURRING_PARAMS
  | execute_oneclick => REQUIRED_EXECUTE_ONECLICK_PARAMS
  end.

(** ** Messages *)

Definition token_msg : string :=
  "Access token is not valid. It should be a non-empty string.".
Definition missing_id_msg : string := "Missing ID.".
Definition invalid_id_msg : string :=
  "Invalid ID parameter. Should be string of 36 characters.".
Definition missing_param_msg (param : string) : string :=
  ("Missing required parameter: " ++ param)%string.

Definition billerId_msg : string :=
  "Invalid 'billerId' parameter. Should be a string of 36 characters.".
Definition billerExpiry_msg : string :=
  "Invalid 'billerExpiry' parameter. Should be a string of 4 characters.".
Definition payId_msg : string :=
  "Invalid 'payId' parameter. Should be a string of 36 characters.".
Definition confirmAmount_msg : string :=
  "Invalid 'confirmAmount' parameter. Should be a numeric value > 0.".
Definition amount_msg : string :=
  "Invalid 'amount' parameter. Should be a numeric value >= 1.".
Definition refundAmount_msg : string :=
  "Invalid 'refundAmount' parameter. Should be a numeric value > 0.".
Definition currency_msg : string :=
  "Invalid 'currency' parameter. Currency should be one of 'MDL', 'EUR', or 'USD'.".
Definition clientIp_msg : string :=
  "Invalid 'clientIp' parameter. Please provide a valid IP address.".
Definition language_msg : string :=
  "Invalid 'language' parameter. Should be a string of 2 characters.".
Definition description_msg : string :=
  "Invalid 'description' parameter. Should be a string and not exceed 124 characters.".
Definition clientName_msg : string :=
  "Invalid 'clientName' parameter. Should be a string and not exceed 128 characters.".
Definition email_msg : string :=
  "Invalid 'email' parameter. Please provide a valid email address.".
Definition phone_msg : string :=
  "Invalid 'phone' parameter. Phone number should not exceed 40 characters.".
Definition orderId_msg : string :=
  "Invalid 'orderId' parameter. Should be a string and not exceed 36 characters.".
Definition delivery_msg : string :=
  "Invalid 'delivery' parameter. Delivery fee should be a numeric value >= 0.".
Definition items_msg : string :=
  "Invalid 'items' parameter. Items should be a non-empty list.".
Definition item_id_msg : string :=
  "Invalid 'id' parameter in the 'items' list. Should be a string and not exceed 36 characters.".
Definition item_name_msg : string :=
  "Invalid 'name' parameter in the 'items' list. Should be a string and not exceed 128 characters.".
Definition item_price_msg : string :=
  "Invalid 'price' parameter in the 'items' list. Item price should be a numeric value >= 0.".
Definition item_quantity_msg : string :=
  "Invalid 'quantity' parameter in the 'items' array. Item quantity should be a numeric value >= 0.".
Definition callbackUrl_msg : string :=
  "Invalid 'callbackUrl' parameter. Should be a string url.".
Definition okUrl_msg : string :=
  "Invalid 'ok_url' parameter. Should be a string url.".
Definition failUrl_msg : string :=
  "Invalid 'fail_url' parameter. Should be a string url.".

Definition invalid (msg : string) : exn := MaibPaymentException msg.

(** ** Validators *)

(** [__validate_access_token(token)] *)
Definition validate_access_token (token : pyval) : result unit :=
  if negb (truthy token) then Raise (invalid token_msg)
  else n <- len token ;; raise_if (n =? 0) (invalid token_msg).

(** [__validate_id_param(entity_id)] *)
Definition validate_id_param (entity_id : pyval) : result unit :=
  raise_if (negb (truthy entity_id)) (invalid missing_id_msg) ;;
  n <- len entity_id ;;
  raise_if (n =? 0) (invalid invalid_id_msg).

(** [x not in ['MDL', 'EUR', 'USD']] for a [str] [x]. *)
Definition not_in (v : pyval) (l : list string) : bool :=
  negb (existsb (fun s => str_eq s v) l).

(** [if v is not None: body] *)
Definition if_not_none (v : pyval) (body : result unit) : result unit :=
  if negb (is_none v) then body else Ok tt.

(** The loop over [required_params]. *)
Fixpoint check_required (data : dict) (required_params : list string)
  : result unit :=
  match required_params with
  | [] => Ok tt
  | param :: rest =>
      raise_if (is_none (dict_get data param))
        (invalid (missing_param_msg param)) ;;
      check_required data rest
  end.

(** The body of [for item in items]. *)
Definition validate_item (item : pyval) : result unit :=
  item_id <- get item "id" ;;
  if_not_none item_id
    (raise_if (negb (isinstance_str item_id) || (len_of item_id >? 36))
       (invalid item_id_msg)) ;;
  item_name <- get item "name" ;;
  if_not_none item_name
    (raise_if (negb (isinstance_str item_name) || (len_of item_name >? 128))
       (invalid item_name_msg)) ;;
  item_price <- get item "price" ;;
  if_not_none item_price
    (raise_if (negb (isinstance_float_int item_price)
               || num_lt item_price (VInt 0))
       (invalid item_price_msg)) ;;
  quantity <- get item "quantity" ;;
  if_not_none quantity
    (raise_if (negb (isinstance_int quantity) || num_lt quantity (VInt 0))
       (invalid item_quantity_msg)).

Fixpoint validate_items (items : list pyval) : result unit :=
  match items with
  | [] => Ok tt
  | item :: rest => validate_item item ;; validate_items rest
  end.

(** [for item in items] where [items] has passed [isinstance(items, list)]. *)
Definition for_items (items : pyval) : result unit :=
  match items with
  | VList l => validate_items l
  | _ => Ok tt
  end.

(** [__validate_pay_params(data, required_params)] *)
Definition validate_pay_params (data : dict) (required_params : list string)
  : result bool :=
  check_required data required_params ;;
  let biller_id := dict_get data "billerId" in
  if_not_none biller_id
    (raise_if (negb (isinstance_str biller_id)
               || negb (len_of biller_id =? 36))
       (invalid billerId_msg)) ;;
  let biller_expiry := dict_get data "billerExpiry" in
  if_not_none biller_expiry
    (raise_if (negb (isinstance_str biller_expiry)
               || negb (len_of biller_expiry =? 4))
       (invalid billerExpiry_msg)) ;;
  let pay_id := dict_get data "payId" in
  if_not_none pay_id
    (raise_if (negb (isinstance_str pay_id) || (len_of pay_id >? 36))
       (invalid payId_msg)) ;;
  let confirm_amount := dict_get data "confirmAmount" in
  if_not_none confirm_amount
    (raise_if (negb (isinstance_float_int confirm_amount)
               || num_lt confirm_amount (VFloat float_0_01))
       (invalid confirmAmount_msg)) ;;
  let amount := dict_get data "amount" in
  if_not_none amount
    (raise_if (negb (isinstance_float_int amount) || num_lt amount (VInt 1))
       (invalid amount_msg)) ;;
  let refund_amount := dict_get data "refundAmount" in
  if_not_none refund_amount
    (raise_if (negb (isinstance_float_int refund_amount)
               || num_lt refund_amount (VFloat float_0_01))
       (invalid refundAmount_msg)) ;;
  let currency := dict_get data "currency" in
  if_not_none currency
    (raise_if (negb (isinstance_str currency)
               || not_in currency ["MDL"; "EUR"; "USD"])
       (invalid currency_msg)) ;;
  let client_ip := dict_get data "clientIp" in
  if_not_none client_ip
    (raise_if (negb (isinstance_str client_ip)) (invalid clientIp_msg)) ;;
  let language := dict_get data "language" in
  if_not_none language
    (raise_if (negb (isinstance_str language) || negb (len_of language =? 2))
       (invalid language_msg)) ;;
  let description := dict_get data "description" in
  if_not_none description
    (raise_if (negb (isinstance_str description)
               || (len_of description >? 124))
       (invalid description_msg)) ;;
  let client_name := dict_get data "clientName" in
  if_not_none client_name
    (raise_if (negb (isinstance_str client_name)
               || (len_of client_name >? 128))
       (invalid clientName_msg)) ;;
  let email := dict_get data "email" in
  if_not_none email
    (raise_if (negb (isinstance_str email)) (invalid email_msg)) ;;
  let phone := dict_get data "phone" in
  if_not_none phone
    (raise_if (negb (isinstance_str phone) || (len_of phone >? 40))
       (invalid phone_msg)) ;;
  let order_id := dict_get data "orderId" in
  if_not_none order_id
    (raise_if (negb (isinstance_str order_id) || (len_of order_id >? 36))
       (invalid orderId_msg)) ;;
  let delivery := dict_get data "delivery" in
  if_not_none delivery
    (raise_if (negb (isinstance_float_int delivery)
               || num_lt delivery (VInt 0))
       (invalid delivery_msg)) ;;
  let items := dict_get data "items" in
  if_not_none items
    (raise_if (negb (isinstance_list items) || (len_of items =? 0))
       (invalid items_msg) ;;
     for_items items) ;;
  let callback_url := dict_get data "callbackUrl" in
  if_not_none callback_url
    (raise_if (negb (isinstance_str callback_url)) (invalid callbackUrl_msg)) ;;
  let ok_url := dict_get data "okUrl" in
  if_not_none ok_url
    (raise_if (negb (isinstance_str ok_url)) (invalid okUrl_msg)) ;;
  let fail_url := dict_get data "failUrl" in
  if_not_none fail_url
    (raise_if (negb (isinstance_str fail_url)) (invalid failUrl_msg)) ;;
  Ok true.

End MaibApi.

(** * [maibapi.py]: class [MAIBAPI], the older twin *)

Module MAIBAPI.

(** [validate_id_param(self, entity_id)] *)
Definition validate_id_param (entity_id : pyval) : result unit :=
  raise_if (negb (truthy entity_id))
    (MaibPaymentException "Missing ID.") ;;
  n <- len entity_id ;;
  raise_if (n =? 0)
    (MaibPaymentException
       "Invalid ID parameter. Should be string of 36 characters.").

End MAIBAPI.

(** * [maibauth.py]: class [MAIBAuth] *)

Module MAIBAuth.

(** What [MAIBSDK.send_request] hands to the HTTP library. *)
Record request : Type := mk_request {
  method : string;
  url : string;
  data : dict
}.

Definition required_msg : string :=
  "Project ID and Project Secret or Refresh Token are required.".

Definition http_error_msg : string :=
  ("HTTP error while sending POST request to endpoint "
   ++ MAIBSDK.GET_TOKEN)%string.

Section Client.

Variable repr : pyval -> string.

(** The gateway as seen through [requests.request(...).json()]: the parsed
    answer to a request, or a failure of the exchange. *)
Variable gateway : request -> result pyval.

(** [self.client.send_request(method, url, data)]; [sent] lists the requests
    that went out so far. *)
Definition send_request (method url : string) (data : dict)
    (sent : list request) : result pyval * list request :=
  let rq := mk_request method url data in
  (gateway rq, sent ++ [rq]).

(** [generate_token(self, project_id, project_secret)] *)
Definition generate_token (project_id project_secret : pyval)
    (sent : list request) : result pyval * list request :=
  if is_none project_id && is_none project_secret then
    (Raise (MaibTokenException required_msg), sent)
  else
    let post_data : dict := [] in
    let post_data :=
      if negb (is_none project_id) && negb (is_none project_secret) then
        setitem (setitem post_data "projectId" project_id)
          "projectSecret" project_secret
      else if negb (is_none project_id) && is_none project_secret then
        setitem post_data "refreshToken" project_id
      else post_data in
    match send_request "POST" MAIBSDK.GET_TOKEN post_data sent with
    | (Raise ex, sent') => (Raise (MaibTokenException http_error_msg), sent')
    | (Ok response, sent') =>
        (MAIBSDK.handle_response repr response MAIBSDK.GET_TOKEN, sent')
    end.

End Client.

End MAIBAuth.

(** * The validation contract, as a table *)

Module Contract.

Import MaibApi.

Definition rule : Type := pyval -> result unit.

(** The per-field rules in the fixed order of the contract; each rule is the
    test [__validate_pay_params] applies to a value of that field. *)
Definition field_rules : list (string * rule) :=
  [ ("billerId", fun v =>
       raise_if (negb (isinstance_str v) || negb (len_of v =? 36))
         (invalid billerId_msg));
    ("billerExpiry", fun v =>
       raise_if (negb (isinstance_str v) || negb (len_of v =? 4))
         (invalid billerExpiry_msg));
    ("payId", fun v =>
       raise_if (negb (isinstance_str v) || (len_of v >? 36))
         (invalid payId_msg));
    ("confirmAmount", fun v =>
       raise_if (negb (isinstance_float_int v)
                 || num_lt v (VFloat float_0_01))
         (invalid confirmAmount_msg));
    ("amount", fun v =>
       raise_if (negb (isinstance_float_int v) || num_lt v (VInt 1))
         (invalid amount_msg));
    ("refundAmount", fun v =>
       raise_if (negb (isinstance_float_int v)
                 || num_lt v (VFloat float_0_01))
         (invalid refundAmount_msg));
    ("currency", fun v =>
       raise_if (negb (isinstance_str v) || not_in v ["MDL"; "EUR"; "USD"])
         (invalid currency_msg));
    ("clientIp", fun v =>
       raise_if (negb (isinstance_str v)) (invalid clientIp_msg));
    ("language", fun v =>
       raise_if (negb (isinstance_str v) || negb (len_of v =? 2))
         (invalid language_msg));
    ("description", fun v =>
       raise_if (negb (isinstance_str v) || (len_of v >? 124))
         (invalid description_msg));
    ("clientName", fun v =>
       raise_if (negb (isinstance_str v) || (len_of v >? 128))
         (invalid clientName_msg));
    ("email", fun v =>
       raise_if (negb (isinstance_str v)) (invalid email_msg));
    ("phone", fun v =>
       raise_if (negb (isinstance_str v) || (len_of v >? 40))
         (invalid phone_msg));
    ("orderId", fun v =>
       raise_if (negb (isinstance_str v) || (len_of v >? 36))
         (invalid orderId_msg));
    ("delivery", fun v =>
       raise_if (negb (isinstance_float_int v) || num_lt v (VInt 0))
         (invalid delivery_msg));
    ("items", fun v =>
       raise_if (negb (isinstance_list v) || (len_of v =? 0))
         (invalid items_msg) ;;
       for_items v);
    ("callbackUrl", fun v =>
       raise_if (negb (isinstance_str v)) (invalid callbackUrl_msg));
    ("okUrl", fun v =>
       raise_if (negb (isinstance_str v)) (invalid okUrl_msg));
    ("failUrl", fun v =>
       raise_if (negb (isinstance_str v)) (invalid failUrl_msg)) ].

(** The rule of a field; a field without a rule is not constrained. *)
Fixpoint rule_in (table : list (string * rule)) (field : string) : rule :=
  match table with
  | [] => fun _ => Ok tt
  | (f, r) :: table' => if String.eqb f field then r else rule_in table' field
  end.

Definition rule_of : string -> rule := rule_in field_rules.

(** A required field has to be present and not null. *)
Definition required_constraint (data : dict) (param : string) : result unit :=
  raise_if (is_none (dict_get data param)) (invalid (missing_param_msg param)).

(** A rule applies only to a field that is present in the bag. *)
Definition field_constraint (data : dict) (fr : string * rule)
  : result unit :=
  if_not_none (dict_get data (fst fr)) (snd fr (dict_get data (fst fr))).

(** All the constraints on a bag, in the order of the contract: the required
    set in its listed order, then the table. *)
Definition constraints (data : dict) (required : list string)
  : list (result unit) :=
  map (required_constraint data) required
  ++ map (field_constraint data) field_rules.

(** The first constraint that is violated, if any. *)
Fixpoint first_failure (cs : list (result unit)) : result unit :=
  match cs with
  | [] => Ok tt
  | Ok _ :: cs' => first_failure cs'
  | Raise e :: _ => Raise e
  end.

Definition holds (c : result unit) : Prop := c = Ok tt.

(** The rules that come before a field in the table. *)
Fixpoint rules_before_in (table : list (string * rule)) (field : string)
  : list (string * rule) :=
  match table with
  | [] => []
  | (f, r) :: table' =>
      if String.eqb f field then [] else (f, r) :: rules_before_in table' field
  end.

Definition rules_before : string -> list (string * rule) :=
  rules_before_in field_rules.

(** No constraint that is checked before [field] is violated. *)
Definition no_violation_before (data : dict) (required : list string)
    (field : string) : Prop :=
  Forall holds (map (required_constraint data) required
                ++ map (field_constraint data) (rules_before field)).





(** The fields whose format the SDK leaves unchecked. *)
Definition unchecked_format_fields : list string :=
  ["clientIp"; "email"; "callbackUrl"; "okUrl"; "failUrl"].

(** The numeric fields with their declared minimum. *)
Definition minimum_bounds : list (string * pyval) :=
  [ ("amount", VInt 1);
    ("confirmAmount", VFloat float_0_01);
    ("refundAmount", VFloat float_0_01);
    ("delivery", VInt 0) ].

End Contract.

(** * The request validator, as the contract words it *)

Module Validator.

(** What validation reports: a required field without a value, a field (or
    a sub-field of an element of a sequence) that breaks its rule, or an
    element of a sequence that is no object. *)
Inductive failure : Type :=
| MissingParameter (field : string)
| InvalidParameter (field : string)
| NotAnObject.


(** ** Shapes of values *)

(** A string whose length fits. *)
Definition string_with (fits : Z -> bool) (v : pyval) : bool :=
  match v with
  | VStr s => fits (Z.of_nat (String.length s))
  | _ => false
  end.



(** One of the listed strings. *)
Definition one_of (l : list string) (v : pyval) : bool :=
  match v with
  | VStr s => existsb (String.eqb s) l
  | _ => false
  end.

(** A number ([int], [float] or [bool]) that stands in [from] to the
    bound. *)
Definition number_with (from : pyval -> bool) (v : pyval) : bool :=
  match v with
  | VInt _ | VFloat _ | VBool _ => from v
  | _ => false
  end.

(** An integer ([int] or [bool]) that stands in [from] to the bound. *)
Definition integer_with (from : pyval -> bool) (v : pyval) : bool :=
  match v with
  | VInt _ | VBool _ => from v
  | _ => false
  end.



(** ** The table of rules *)

(** The constraint on a field: a shape of its value, or a non-empty
    sequence of objects with a shape for each of the listed sub-fields. *)
Inductive constraint : Type :=
| Value (conforms : pyval -> bool)
| Sequence (parts : list (string * (pyval -> bool))).

(** The sub-fields of an element of [items], in the order they are
    checked. *)
Definition element_parts (from : pyval -> pyval -> bool)
  : list (string * (pyval -> bool)) :=
  [ ("id", string_with (fun n => n <=? 36));
    ("name", string_with (fun n => n <=? 128));
    ("price", number_with (from (VInt 0)));
    ("quantity", integer_with (from (VInt 0))) ].

(** The table in its fixed order, for a reading [free_form] of the fields
    whose format is left unchecked and a reading [from] of a minimum. *)
Definition table (free_form : pyval -> bool)
    (from : pyval -> pyval -> bool) : list (string * constraint) :=
  [ ("billerId", Value (string_with (fun n => n =? 36)));
    ("billerExpiry", Value (string_with (fun n => n =? 4)));
    ("payId", Value (string_with (fun n => n <=? 36)));
    ("confirmAmount", Value (number_with (from (VFloat float_0_01))));
    ("amount", Value (number_with (from (VInt 1))));
    ("refundAmount", Value (number_with (from (VFloat float_0_01))));
    ("currency", Value (one_of ["MDL"; "EUR"; "USD"]));
    ("clientIp", Value free_form);
    ("language", Value (string_with (fun n => n =? 2)));
    ("description", Value (string_with (fun n => n <=? 124)));
    ("clientName", Value (string_with (fun n => n <=? 128)));
    ("email", Value free_form);
    ("phone", Value (string_with (fun n => n <=? 40)));
    ("orderId", Value (string_with (fun n => n <=? 36)));
    ("delivery", Value (number_with (from (VInt 0))));
    ("items", Sequence (element_parts from));
    ("callbackUrl", Value free_form);
    ("okUrl", Value free_form);
    ("failUrl", Value free_form) ].



(** ** Validation *)










(** ** How the SDK reports a failure *)

(** The message of the SDK for each field and sub-field. *)
Definition messages : list (string * string) :=
  [ ("billerId", MaibApi.billerId_msg);
    ("billerExpiry", MaibApi.billerExpiry_msg);
    ("payId", MaibApi.payId_msg);
    ("confirmAmount", MaibApi.confirmAmount_msg);
    ("amount", MaibApi.amount_msg);
    ("refundAmount", MaibApi.refundAmount_msg);
    ("currency", MaibApi.currency_msg);
    ("clientIp", MaibApi.clientIp_msg);
    ("language", MaibApi.language_msg);
    ("description", MaibApi.description_msg);
    ("clientName", MaibApi.clientName_msg);
    ("email", MaibApi.email_msg);
    ("phone", MaibApi.phone_msg);
    ("orderId", MaibApi.orderId_msg);
    ("delivery", MaibApi.delivery_msg);
    ("items", MaibApi.items_msg);
    ("items[].id", MaibApi.item_id_msg);
    ("items[].name", MaibApi.item_name_msg);
    ("items[].price", MaibApi.item_price_msg);
    ("items[].quantity", MaibApi.item_quantity_msg);
    ("callbackUrl", MaibApi.callbackUrl_msg);
    ("okUrl", MaibApi.okUrl_msg);
    ("failUrl", MaibApi.failUrl_msg) ].

Fixpoint message_in (l : list (string * string)) (field : string) : string :=
  match l with
  | [] => ""
  | (f, m) :: l' => if String.eqb f field then m else message_in l' field
  end.

(** The exception that stands for a failure. *)
Definition report (f : failure) : exn :=
  match f with
  | MissingParameter field =>
      MaibPaymentException ("Missing required parameter: " ++ field)
  | InvalidParameter field =>
      MaibPaymentException (message_in messages field)
  | NotAnObject => AttributeError
  end.


(** The outcome of the procedure that stands for a verdict. *)
Definition outcome (verdict : option failure) : result bool :=
  match verdict with
  | None => Ok true
  | Some f => Raise (report f)
  end.

End Validator.

(** * The callback signature, as the contract words it *)

Module Signature.

(** Entries in the code-point order of their keys. *)
Definition key_lt (a b : string * pyval) : Prop :=
  String.ltb (fst a) (fst b) = true.

(** The string form of a value, the empty string for null. *)
Definition string_form (repr : pyval -> string) (value : pyval) : string :=
  match value with
  | VNone => ""
  | _ => str repr value
  end.

(** The values of the sorted entries and then the secret, joined by [:]. *)
Definition sign_string (repr : pyval -> string) (entries : dict)
    (secret : string) : string :=
  String.concat ":"
    (map (fun kv => string_form repr (snd kv)) entries ++ [secret]).

(** The base64 text of the SHA-256 digest of the joined string. *)
Definition expected_signature (repr : pyval -> string) (entries : dict)
    (secret : string) : string :=
  decode (b64encode (sha256 (encode (sign_string repr entries secret)))).

(** The outcome is an error of the SDK's own class. *)
Definition sdk_error (r : result bool) : Prop :=
  exists msg, r = Raise (MaibPaymentException msg).

Definition is_VStr (v : pyval) : Prop := exists s, v = VStr s.

(** U+00E9, a code point outside ASCII. *)
Definition e_acute : string := String (ascii_of_nat 233) EmptyString.

(** A [repr] for examples whose values are [None], [bool], [int] or [str],
    on which [str] does not call it. *)
Definition no_repr : pyval -> string := fun _ => "".

End Signature.

(** * Sample inputs *)

Module Examples.

(** A parameter bag for [pay] that meets every rule. *)
Definition pay_bag : dict :=
  [("amount", VInt 10); ("currency", VStr "MDL");
   ("clientIp", VStr "127.0.0.1")].

(** The same bag with an empty [clientIp]. *)
Definition empty_ip_bag : dict :=
  [("amount", VInt 10); ("currency", VStr "MDL"); ("clientIp", VStr "")].


(** A callback whose [result] holds its keys out of order and a null value,
    signed with the secret [k]: the signature is that of the string
    [:2:k]. *)
Definition signed_callback : dict :=
  [("result", VDict [("b", VInt 2); ("a", VNone)]);
   ("signature", VStr "u7VZruBRbBaSFAe4bmVB26T2nq9XUZAjD6oX2T2F4O4=")].

(** A callback with a null value whose signature is that of [:k]. *)
Definition null_value_callback : pyval :=
  VDict [("signature", VStr "IGRnYBmHVZsRqKrseHJfAR2ultuzbNljfWpNUHRG4FE=");
         ("result", VDict [("a", VNone)])].

(** A callback with a wrong signature. *)
Definition unsigned_callback : pyval :=
  VDict [("signature", VStr "x"); ("result", VDict [("a", VStr "1")])].

(** A callback with an empty [result]. *)
Definition empty_result_callback : pyval :=
  VDict [("signature", VStr "x"); ("result", VDict [])].

(** A callback whose signature holds a code point outside ASCII. *)
Definition non_ascii_callback : pyval :=
  VDict [("signature", VStr Signature.e_acute);
         ("result", VDict [("a", VStr "1")])].

(** An error envelope with no entry in [errors]. *)
Definition empty_errors_envelope : pyval :=
  VDict [("ok", VBool false); ("errors", VList [])].

(** A gateway that answers every request with a token. *)
Definition token_gateway (rq : MAIBAuth.request) : result pyval :=
  Ok (VDict [("ok", VBool true);
             ("result", VDict [("accessToken", VStr "t")])]).

End Examples.

(** * The HTTP exchange: [requests.request] *)

Module Http.

(** What the SDK hands to [requests.request]: the method, the URL, the
    [json=] body ([None] for no body), the headers its [auth=] object sets
    and the timeout in seconds. *)
Record request : Type := mk_request {
  method : string;
  url : string;
  json : pyval;
  headers : dict;
  timeout : Z
}.

(** What the SDK reads of the answer: [response.ok] (a status below 400)
    and [response.json()], which raises on a body that is not JSON. *)
Record response : Type := mk_response {
  ok : bool;
  body : result pyval
}.

(** The requests handed to the library so far, oldest first. *)
Definition log : Type := list request.

End Http.

(** * [maib_sdk.py] and [maibsdk.py]: the transport methods *)

Module BearerAuth.

(** [__call__]: [request.headers["Authorization"] = f'Bearer {self.token}'] *)
Definition call (repr : pyval -> string) (token : pyval) (headers : dict)
  : dict :=
  setitem headers "Authorization" (VStr ("Bearer " ++ str repr token)%string).

End BearerAuth.

Module Transport.

Definition DEFAULT_TIMEOUT : Z := 30.

(** [d.get(k, default)]: the default stands in for an absent key only. *)
Definition get_default (x : pyval) (k : string) (default : pyval)
  : result pyval :=
  match x with
  | VDict d => Ok (match lookup d k with Some v => v | None => default end)
  | _ => Raise AttributeError
  end.

(** [next(iter(x), None)]: the first element of a list, the first character
    of a string, the first key of a dict; what is not iterable raises. *)
Definition next_iter (x : pyval) : result pyval :=
  match x with
  | VList [] => Ok VNone
  | VList (v :: _) => Ok v
  | VStr EmptyString => Ok VNone
  | VStr (String c _) => Ok (VStr (String c EmptyString))
  | VDict [] => Ok VNone
  | VDict ((k, _) :: _) => Ok (VStr k)
  | VNone | VBool _ | VInt _ | VFloat _ => Raise TypeError
  end.

Section Interpreter.

Variable repr : pyval -> string.

(** The network: the answer of [requests.request] to a request, or the
    exception it raises. *)
Variable http : Http.request -> result Http.response.

(** [json.loads] *)
Variable loads : string -> result pyval.

(** [__build_url(url, entity_id)], the same in both variants. *)
Definition build_url (url : string) (entity_id : pyval) : string :=
  let url := (MaibSdk.DEFAULT_BASE_URL ++ url)%string in
  if truthy entity_id then (url ++ "/" ++ str repr entity_id)%string
  else url.

(** The request both variants of [send_request] build. *)
Definition prepare (method url : string) (data token entity_id : pyval)
  : Http.request :=
  let auth := if truthy token then Some token else None in
  let url := build_url url entity_id in
  Http.mk_request method url data
    (match auth with
     | Some t => BearerAuth.call repr t []
     | None => []
     end)
    DEFAULT_TIMEOUT.

(** [MaibSdk.send_request] of [maib_sdk.py]: an answer whose status is not
    ok gives [None]. *)
Definition send_request (method url : string) (data token entity_id : pyval)
    (sent : Http.log) : result pyval * Http.log :=
  let rq := prepare method url data token entity_id in
  match http rq with
  | Raise ex => (Raise ex, sent ++ [rq])
  | Ok response =>
      if negb (Http.ok response) then (Ok VNone, sent ++ [rq])
      else (Http.body response, sent ++ [rq])
  end.

(** [MAIBSDK.send_request] of [maibsdk.py]: the body is parsed whatever the
    status. *)
Definition send_request_legacy (method url : string)
    (data token entity_id : pyval) (sent : Http.log)
  : result pyval * Http.log :=
  let rq := prepare method url data token entity_id in
  match http rq with
  | Raise ex => (Raise ex, sent ++ [rq])
  | Ok response => (Http.body response, sent ++ [rq])
  end.

(** [get_error_message(response)], the same in both variants. *)
Definition get_error_message (response : string) : result pyval :=
  let error_message := VStr "" in
  if truthy (VStr response) then
    response_obj <- loads response ;;
    errors <- get_default response_obj "errors" (VList []) ;;
    response_error <- next_iter errors ;;
    if truthy response_error then get response_error "errorMessage"
    else Ok (VStr "Unknown error details.")
  else Ok error_message.

End Interpreter.

End Transport.

(** * [maib_api.py] and [maibapi.py]: the operations *)

Module Api.

(** The client an API object is built around: its [send_request] and its
    [handle_response]. *)
Record client : Type := mk_client {
  client_send_request :
    string -> string -> pyval -> pyval -> pyval -> Http.log ->
    result pyval * Http.log;
  client_handle_response : pyval -> string -> result pyval
}.

(** [str(ex)]: the message of an exception of the SDK; [text] gives that of
    the interpreter's and the HTTP library's. *)
Definition str_exn (text : exn -> string) (ex : exn) : string :=
  match ex with
  | MaibPaymentException msg | MaibTokenException msg => msg
  | _ => text ex
  end.

Definition http_error_msg (method endpoint message : string) : string :=
  ("HTTP error while sending " ++ method ++ " request to endpoint "
   ++ endpoint ++ ": " ++ message)%string.

Definition invalid_request_msg (message : string) : string :=
  ("Invalid request: " ++ message)%string.

(** [except MaibPaymentException as ex: raise
    MaibPaymentException(f'Invalid request: {ex}')] *)
Definition except_payment_exception {A : Type} (r : result A) : result A :=
  match r with
  | Raise (MaibPaymentException msg) =>
      Raise (MaibPaymentException (invalid_request_msg msg))
  | _ => r
  end.

Section Methods.

Variable text : exn -> string.
Variable self : client.

(** [__send_request(method, endpoint, token, data, entity_id)] *)
Definition send_request (method endpoint : string)
    (token data entity_id : pyval) (sent : Http.log)
  : result pyval * Http.log :=
  match client_send_request self method endpoint data token entity_id sent
  with
  | (Raise ex, sent') =>
      (Raise (MaibPaymentException
                (http_error_msg method endpoint (str_exn text ex))), sent')
  | (Ok response, sent') =>
      (client_handle_response self response endpoint, sent')
  end.

(** [__execute_pay_operation(endpoint, data, token, required_params,
    method='POST')] *)
Definition execute_pay_operation (endpoint : string) (data : dict)
    (token : pyval) (required_params : list string) (method : string)
    (sent : Http.log) : result pyval * Http.log :=
  match
    (MaibApi.validate_pay_params data required_params ;;
     MaibApi.validate_access_token token)
  with
  | Raise ex => (except_payment_exception (Raise ex), sent)
  | Ok _ =>
      let (r, sent') :=
        send_request method endpoint token (VDict data) VNone sent in
      (except_payment_exception r, sent')
  end.

(** [__execute_entity_id_operation(endpoint, entity_id, token,
    method='GET')] *)
Definition execute_entity_id_operation (endpoint : string)
    (entity_id token : pyval) (method : string) (sent : Http.log)
  : result pyval * Http.log :=
  match
    (MaibApi.validate_id_param entity_id ;;
     MaibApi.validate_access_token token)
  with
  | Raise ex => (except_payment_exception (Raise ex), sent)
  | Ok _ =>
      let (r, sent') :=
        send_request method endpoint token VNone entity_id sent in
      (except_payment_exception r, sent')
  end.

Definition pay (data : dict) (token : pyval) :=
  execute_pay_operation MaibSdk.DIRECT_PAY data token
    MaibApi.REQUIRED_PAY_PARAMS "POST".

Definition hold (data : dict) (token : pyval) :=
  execute_pay_operation MaibSdk.HOLD data token
    MaibApi.REQUIRED_PAY_PARAMS "POST".

Definition complete (data : dict) (token : pyval) :=
  execute_pay_operation MaibSdk.COMPLETE data token
    MaibApi.REQUIRED_PAYID_PARAMS "POST".

Definition refund (data : dict) (token : pyval) :=
  execute_pay_operation MaibSdk.REFUND data token
    MaibApi.REQUIRED_PAYID_PARAMS "POST".

Definition pay_info (pay_id token : pyval) :=
  execute_entity_id_operation MaibSdk.PAY_INFO pay_id token "GET".

Definition delete_card (entity_id token : pyval) :=
  execute_entity_id_operation MaibSdk.DELETE_CARD entity_id token "DELETE".

Definition save_recurring (data : dict) (token : pyval) :=
  execute_pay_operation MaibSdk.SAVE_REC data token
    MaibApi.REQUIRED_SAVE_PARAMS "POST".

Definition execute_recurring (data : dict) (token : pyval) :=
  execute_pay_operation MaibSdk.EXE_REC data token
    MaibApi.REQUIRED_EXECUTE_RECURRING_PARAMS "POST".

Definition save_oneclick (data : dict) (token : pyval) :=
  execute_pay_operation MaibSdk.SAVE_ONECLICK data token
    MaibApi.REQUIRED_SAVE_PARAMS "POST".

Definition execute_oneclick (data : dict) (token : pyval) :=
  execute_pay_operation MaibSdk.EXE_ONECLICK data token
    MaibApi.REQUIRED_EXECUTE_ONECLICK_PARAMS "POST".

(** The entry point of an operation that takes a parameter bag. *)
Definition call (op : MaibApi.pay_operation) :=
  match op with
  | MaibApi.pay => pay
  | MaibApi.hold => hold
  | MaibApi.complete => complete
  | MaibApi.refund => refund
  | MaibApi.save_recurring => save_recurring
  | MaibApi.execute_recurring => execute_recurring
  | MaibApi.save_oneclick => save_oneclick
  | MaibApi.execute_oneclick => execute_oneclick
  end.

End Methods.

End Api.

(** [MaibApiRequest.create()]: a [MaibApi] around a new [MaibSdk]. *)
Module MaibApiRequest.

Definition create (repr : pyval -> string)
    (http : Http.request -> result Http.response) : Api.client :=
  Api.mk_client (Transport.send_request repr http)
    (MaibSdk.handle_response repr).

End MaibApiRequest.

(** [MAIBAPIRequest.create()]: a [MAIBAPI] around a new [MAIBSDK]. *)
Module MAIBAPIRequest.

Definition create (repr : pyval -> string)
    (http : Http.request -> result Http.response) : Api.client :=
  Api.mk_client (Transport.send_request_legacy repr http)
    (MAIBSDK.handle_response repr).

End MAIBAPIRequest.

(** * Tables for the operations *)

Module Tables.

(** The fields that hold a string of a set length, with the test on the
    length that [__validate_pay_params] applies. *)
Definition length_rules : list (string * (Z -> bool)) :=
  [ ("billerId", fun n => n =? 36);
    ("billerExpiry", fun n => n =? 4);
    ("payId", fun n => n <=? 36);
    ("language", fun n => n =? 2);
    ("description", fun n => n <=? 124);
    ("clientName", fun n => n <=? 128);
    ("phone", fun n => n <=? 40);
    ("orderId", fun n => n <=? 36) ].

(** The endpoint an entry point names. *)
Definition endpoint_of (op : MaibApi.pay_operation) : string :=
  match op with
  | MaibApi.pay => "pay"
  | MaibApi.hold => "hold"
  | MaibApi.complete => "complete"
  | MaibApi.refund => "refund"
  | MaibApi.save_recurring => "savecard-recurring"
  | MaibApi.execute_recurring => "execute-recurring"
  | MaibApi.save_oneclick => "savecard-oneclick"
  | MaibApi.execute_oneclick => "execute-oneclick"
  end.

(** The API object of either factory: [MAIBAPIRequest.create()] for the
    older variant, [MaibApiRequest.create()] for the other. *)
Definition created (older : bool) (repr : pyval -> string)
    (http : Http.request -> result Http.response) : Api.client :=
  if older then MAIBAPIRequest.create repr http
  else MaibApiRequest.create repr http.

(** The request an operation sends for a bearer token [token]. *)
Definition request_of (method endpoint : string) (body : pyval)
    (token : string) : Http.request :=
  Http.mk_request method
    ("https://api.maibmerchants.md/v1/" ++ endpoint)%string body
    [("Authorization", VStr ("Bearer " ++ token)%string)] 30.

(** A message for exceptions that carry none in the examples. *)
Definition no_text : exn -> string := fun _ => "".

(** A network that answers every request with status 402 and a JSON error
    envelope. *)
Definition refusing_http (rq : Http.request) : result Http.response :=
  Ok (Http.mk_response false
        (Ok (VDict [("ok", VBool false);
                    ("errors",
                     VList [VDict [("errorCode", VStr "12001");
                                   ("errorMessage", VStr "declined")]])]))).

(** A network that answers every request with status 200 and a result. *)
Definition granting_http (rq : Http.request) : result Http.response :=
  Ok (Http.mk_response true
        (Ok (VDict [("ok", VBool true);
                    ("result", VDict [("payId", VStr "p1")])]))).

(** Whether a value is a dict, the only values here that have [get] and
    [items]. *)
Definition is_dict (v : pyval) : bool :=
  match v with VDict _ => true | _ => false end.

End Tables.

(** Case analysis on the scrutinees of a goal, innermost first. *)
Ltac case_split :=
  repeat match goal with
         | |- context [match ?x with _ => _ end] =>
             is_var x; destruct x; cbn
         | |- context [match dict_get ?d ?k with _ => _ end] =>
             destruct (dict_get d k); cbn
         | |- context [if ?b then _ else _] => destruct b eqn:?; cbn
         end.

(** Settles, for a field of [Tables.length_rules] whose rule is in the goal,
    that the rule passes exactly on the strings whose length fits. *)
Ltac len_rule v :=
  let t := fresh "t" in
  let Hb := fresh "Hb" in
  let Ht := fresh "Ht" in
  let Hfit := fresh "Hfit" in
  let t' := fresh "t'" in
  unfold Contract.rule_of;
  cbn [Contract.rule_in Contract.field_rules String.eqb Ascii.eqb Bool.eqb];
  destruct v as [| | | |t| |];
  cbn [isinstance_str len_of len negb orb];
  try (split; [discriminate | intros (t' & Ht & _); discriminate Ht]);
  unfold raise_if; rewrite ?Z.gtb_ltb;
  first [ destruct (Z.of_nat (String.length t) =? _) eqn:Hb
        | destruct (_ <? Z.of_nat (String.length t)) eqn:Hb ];
  cbn [negb];
  (split;
   [ first [ discriminate
           | intros _; exists t; split; [reflexivity|];
             rewrite ?Z.leb_antisym, ?Hb; reflexivity ]
   | first [ reflexivity
           | intros (t' & Ht & Hfit); injection Ht as <-;
             rewrite ?Z.leb_antisym, ?Hb in Hfit; discriminate Hfit ] ]).

(** * Facts about the validation table *)

Module ContractFacts.

Import MaibApi Contract.

Lemma first_failure_cons {A : Type} (c : result unit) cs (k : result A) :
  (first_failure (c :: cs) ;; k) = (c ;; first_failure cs ;; k).
Proof. destruct c; reflexivity. Qed.

Lemma first_failure_app {A : Type} cs1 cs2 (k : result A) :
  (first_failure (cs1 ++ cs2) ;; k)
  = (first_failure cs1 ;; first_failure cs2 ;; k).
Proof.
  induction cs1 as [|c cs1 IH]; [reflexivity|].
  rewrite <- app_comm_cons, !first_failure_cons, IH. reflexivity.
Qed.

Lemma check_required_first_failure data required :
  check_required data required
  = first_failure (map (required_constraint data) required).
Proof.
  induction required as [|p required IH]; [reflexivity|].
  cbn [check_required map]. rewrite IH.
  unfold required_constraint at 2.
  destruct (raise_if _ _) as [[]|]; reflexivity.
Qed.

(** The procedure is the table walked in order. *)
Lemma validate_pay_params_table data required :
  validate_pay_params data required
  = (first_failure (constraints data required) ;; Ok true).
Proof.
  unfold constraints. rewrite first_failure_app.
  rewrite <- check_required_first_failure.
  unfold validate_pay_params. f_equal.
  unfold field_rules. cbn [map].
  repeat rewrite first_failure_cons.
  reflexivity.
Qed.

(** What [first_failure] finds. *)
Lemma first_failure_spec cs :
  (Forall holds cs /\ first_failure cs = Ok tt)
  \/ (exists pre e post,
        cs = pre ++ Raise e :: post /\ Forall holds pre
        /\ first_failure cs = Raise e).
Proof.
  induction cs as [|c cs IH].
  - left. split; [constructor | reflexivity].
  - destruct c as [[]|e].
    + destruct IH as [[Hall Hok] | (pre & e & post & -> & Hpre & Hff)].
      * left. split; [constructor; [reflexivity | assumption] | assumption].
      * right. exists (Ok tt :: pre), e, post.
        split; [reflexivity|]. split; [|assumption].
        constructor; [reflexivity | assumption].
    + right. exists [], e, cs.
      split; [reflexivity|]. split; [constructor | reflexivity].
Qed.

Lemma first_failure_ok cs : first_failure cs = Ok tt <-> Forall holds cs.
Proof.
  induction cs as [|c cs IH]; cbn [first_failure].
  - split; [constructor | reflexivity].
  - destruct c as [[]|e].
    + rewrite IH. split; intro H.
      * constructor; [reflexivity | assumption].
      * inversion H; assumption.
    + split; [discriminate | intro H; inversion H; discriminate].
Qed.

Lemma first_failure_skip pre cs :
  Forall holds pre -> first_failure (pre ++ cs) = first_failure cs.
Proof.
  induction 1 as [|c pre Hc _ IH]; [reflexivity|].
  rewrite Hc. exact IH.
Qed.

(** Validation succeeds exactly when no constraint is violated. *)
Lemma validate_pay_params_ok data required :
  validate_pay_params data required = Ok true
  <-> Forall holds (constraints data required).
Proof.
  rewrite validate_pay_params_table, <- first_failure_ok.
  destruct (first_failure _) as [[]|e]; cbn [bind];
    split; congruence.
Qed.

(** A violated constraint makes validation fail. *)
Lemma validate_pay_params_fails data required c e :
  In c (constraints data required) -> c = Raise e ->
  exists e', validate_pay_params data required = Raise e'.
Proof.
  intros Hin Hc. rewrite validate_pay_params_table.
  destruct (first_failure _) as [[]|e'] eqn:Hff; cbn [bind].
  - apply first_failure_ok in Hff.
    rewrite Forall_forall in Hff. specialize (Hff c Hin).
    unfold holds in Hff. congruence.
  - exists e'. reflexivity.
Qed.

Lemma table_split table field :
  In field (map fst table) ->
  table = rules_before_in table field
          ++ (field, rule_in table field)
          :: skipn (S (List.length (rules_before_in table field))) table.
Proof.
  induction table as [|[f r] table IH]; cbn [map In]; [tauto|].
  intros Hin. cbn [rules_before_in rule_in fst].
  destruct (String.eqb_spec f field) as [->|Hne].
  - reflexivity.
  - destruct Hin as [Heq|Hin]; [contradiction|].
    cbn [app List.length skipn]. f_equal. apply IH, Hin.
Qed.

(** With nothing violated before it, a field that breaks its rule decides
    the outcome. *)
Lemma validate_pay_params_at data required field e :
  In field (map fst field_rules) ->
  no_violation_before data required field ->
  field_constraint data (field, rule_of field) = Raise e ->
  validate_pay_params data required = Raise e.
Proof.
  intros Hin Hpre Hc.
  rewrite validate_pay_params_table. unfold constraints.
  rewrite (table_split field_rules field Hin) at 1.
  rewrite map_app, app_assoc. cbn [map].
  fold (rules_before field) (rule_of field).
  rewrite first_failure_skip by exact Hpre.
  cbn [first_failure]. rewrite Hc. reflexivity.
Qed.

Lemma field_constraint_in data required field :
  In field (map fst field_rules) ->
  In (field_constraint data (field, rule_of field)) (constraints data required).
Proof.
  intros Hin. unfold constraints. apply in_or_app. right.
  apply in_map. rewrite (table_split field_rules field Hin) at 1.
  apply in_or_app. right. left. reflexivity.
Qed.

Lemma lookup_setitem d k v k' :
  lookup (setitem d k v) k'
  = if String.eqb k k' then Some v else lookup d k'.
Proof.
  induction d as [|[k0 v0] d IH]; cbn [setitem lookup].
  - destruct (String.eqb k k'); reflexivity.
  - destruct (String.eqb_spec k0 k) as [->|Hne]; cbn [lookup].
    + destruct (String.eqb k k'); reflexivity.
    + rewrite IH. destruct (String.eqb_spec k0 k') as [->|Hne'].
      * destruct (String.eqb_spec k k') as [->|_];
          [contradiction | reflexivity].
      * reflexivity.
Qed.

Lemma dict_get_setitem d k v k' :
  dict_get (setitem d k v) k' = if String.eqb k k' then v else dict_get d k'.
Proof.
  unfold dict_get. rewrite lookup_setitem.
  destruct (String.eqb k k'); reflexivity.
Qed.

Lemma num_eq_not_lt a b : num_eq a b = true -> num_lt a b = false.
Proof.
  unfold num_eq, num_lt.
  destruct (xnum_of a) as [x|], (xnum_of b) as [y|]; try discriminate.
  destruct (xnum_compare x y) as [[]|]; try discriminate; reflexivity.
Qed.

End ContractFacts.

(** * Facts about the item loop *)

Module ItemFacts.

Import MaibApi.

Lemma validate_items_skip pre rest :
  Forall (fun i => validate_item i = Ok tt) pre ->
  validate_items (pre ++ rest) = validate_items rest.
Proof.
  induction 1 as [|i pre Hi _ IH]; [reflexivity|].
  cbn [app validate_items]. rewrite Hi. exact IH.
Qed.






End ItemFacts.

(** * Facts about the order of keys and [sorted] *)

Module OrderFacts.

Import Signature.

Lemma compare_refl s : String.compare s s = Eq.
Proof.
  induction s as [|c s IH]; cbn [String.compare]; [reflexivity|].
  unfold Ascii.compare. rewrite N.compare_refl. exact IH.
Qed.

Lemma ltb_irrefl s : String.ltb s s = false.
Proof. unfold String.ltb. rewrite compare_refl. reflexivity. Qed.

Lemma ltb_leb a b : String.ltb a b = true -> String.leb a b = true.
Proof.
  unfold String.ltb, String.leb. destruct (String.compare a b);
    congruence.
Qed.

Lemma leb_trans a : forall b c,
  String.leb a b = true -> String.leb b c = true -> String.leb a c = true.
Proof.
  unfold String.leb.
  induction a as [|x a IH]; intros [|y b] [|z c]; cbn [String.compare];
    try congruence.
  unfold Ascii.compare.
  destruct (N.compare_spec (N_of_ascii x) (N_of_ascii y)) as [Hxy|Hxy|Hxy];
    destruct (N.compare_spec (N_of_ascii y) (N_of_ascii z)) as [Hyz|Hyz|Hyz];
    try congruence;
    destruct (N.compare_spec (N_of_ascii x) (N_of_ascii z)) as [Hxz|Hxz|Hxz];
    try congruence; try lia.
  apply IH.
Qed.

(** Two items with different keys go into a sorted list in either order. *)
Lemma insert_item_commute x y l :
  fst x <> fst y ->
  insert_item x (insert_item y l) = insert_item y (insert_item x l).
Proof.
  intros Hne. induction l as [|z l IH]; cbn [insert_item].
  - destruct (String.leb (fst x) (fst y)) eqn:Hxy,
             (String.leb (fst y) (fst x)) eqn:Hyx; try reflexivity.
    + elim Hne. apply String.leb_antisym; assumption.
    + destruct (String.leb_total (fst x) (fst y)); congruence.
  - destruct (String.leb (fst y) (fst z)) eqn:Hyz,
             (String.leb (fst x) (fst z)) eqn:Hxz; cbn [insert_item];
      rewrite ?Hyz, ?Hxz.
    + destruct (String.leb (fst x) (fst y)) eqn:Hxy,
               (String.leb (fst y) (fst x)) eqn:Hyx;
        rewrite ?Hyz, ?Hxz; try reflexivity.
      * elim Hne. apply String.leb_antisym; assumption.
      * destruct (String.leb_total (fst x) (fst y)); congruence.
    + destruct (String.leb (fst x) (fst y)) eqn:Hxy.
      * rewrite (leb_trans _ _ _ Hxy Hyz) in Hxz. discriminate.
      * reflexivity.
    + destruct (String.leb (fst y) (fst x)) eqn:Hyx.
      * rewrite (leb_trans _ _ _ Hyx Hxz) in Hyz. discriminate.
      * reflexivity.
    + rewrite IH. reflexivity.
Qed.

Lemma sorted_permutation l l' :
  Permutation l l' -> NoDup (map fst l) -> sorted l = sorted l'.
Proof.
  induction 1 as [|x l l' Hp IH|x y l|l l' l'' Hp1 IH1 Hp2 IH2];
    cbn [sorted map]; intros Hnd.
  - reflexivity.
  - inversion Hnd; subst. rewrite IH by assumption. reflexivity.
  - apply insert_item_commute. inversion Hnd as [|? ? Hnotin _]; subst.
    intros Heq. apply Hnotin. left. symmetry. exact Heq.
  - rewrite IH1 by assumption. apply IH2.
    eapply Permutation_NoDup; [|exact Hnd].
    apply Permutation_map, Hp1.
Qed.

Lemma sorted_fixpoint l : StronglySorted key_lt l -> sorted l = l.
Proof.
  induction 1 as [|x l Hs IH Hx]; cbn [sorted]; [reflexivity|].
  rewrite IH. destruct l as [|y l]; [reflexivity|].
  cbn [insert_item]. inversion Hx as [|? ? Hxy _]; subst.
  rewrite (ltb_leb _ _ Hxy). reflexivity.
Qed.

Lemma key_lt_NoDup l : StronglySorted key_lt l -> NoDup (map fst l).
Proof.
  induction 1 as [|x l Hs IH Hx]; cbn [map]; constructor; [|exact IH].
  intros Hin. apply in_map_iff in Hin. destruct Hin as (y & Heq & Hy).
  rewrite Forall_forall in Hx. specialize (Hx y Hy).
  unfold key_lt in Hx. rewrite Heq, ltb_irrefl in Hx. discriminate.
Qed.

(** [sorted] finds the entries in key order, whatever order the [dict]
    holds them in. *)
Lemma sorted_entries result entries :
  Permutation entries result -> StronglySorted key_lt entries ->
  sorted result = entries.
Proof.
  intros Hp Hs. rewrite <- (sorted_fixpoint entries Hs). symmetry.
  apply sorted_permutation; [exact Hp | apply key_lt_NoDup, Hs].
Qed.

Lemma setitem_new d k v :
  ~ In k (map fst d) -> setitem d k v = d ++ [(k, v)].
Proof.
  induction d as [|[k0 v0] d IH]; cbn [setitem map fst In app];
    intros Hnotin; [reflexivity|].
  destruct (String.eqb_spec k0 k) as [->|_]; [tauto|].
  rewrite IH by tauto. reflexivity.
Qed.

Lemma dict_comprehension_acc f l : forall acc,
  NoDup (map fst (acc ++ l)) ->
  fold_left (fun d kv => setitem d (fst kv) (f (snd kv))) l acc
  = acc ++ map (fun kv => (fst kv, f (snd kv))) l.
Proof.
  induction l as [|[k v] l IH]; intros acc Hnd; cbn [fold_left map fst snd].
  - symmetry. apply app_nil_r.
  - rewrite setitem_new.
    + rewrite IH; [rewrite <- app_assoc; reflexivity|].
      rewrite <- app_assoc, !map_app. rewrite map_app in Hnd. exact Hnd.
    + rewrite map_app in Hnd. cbn [map fst] in Hnd.
      apply NoDup_remove_2 in Hnd. intros Hin. apply Hnd.
      apply in_or_app. left. exact Hin.
Qed.

(** Over distinct keys the comprehension keeps the order of its input. *)
Lemma values_dict_comprehension f l :
  NoDup (map fst l) ->
  values (dict_comprehension f l) = map (fun kv => f (snd kv)) l.
Proof.
  intros Hnd. unfold values, dict_comprehension.
  rewrite dict_comprehension_acc by exact Hnd.
  cbn [app]. rewrite map_map. reflexivity.
Qed.

Lemma str_items_VStr ss : str_items (map VStr ss) = Ok ss.
Proof.
  induction ss as [|s ss IH]; cbn [map str_items]; [reflexivity|].
  rewrite IH. reflexivity.
Qed.

End OrderFacts.

(** * Facts about the encoded digest *)

Module CodecFacts.

Lemma list_ind3 (P : list Z -> Prop) :
  P [] -> (forall x, P [x]) -> (forall x y, P [x; y]) ->
  (forall x y z l, P l -> P (x :: y :: z :: l)) ->
  forall l, P l.
Proof.
  intros H0 H1 H2 H3 l.
  enough (P l /\ (forall x, P (x :: l)) /\ (forall x y, P (x :: y :: l)))
    as [H _] by exact H.
  induction l as [|a l (IH0 & IH1 & IH2)]; repeat split; auto.
Qed.

Lemma b64_char_lt n : b64_char n < 128.
Proof.
  unfold b64_char.
  destruct (Z.ltb_spec n 26); [lia|].
  destruct (Z.ltb_spec n 52); [lia|].
  destruct (Z.ltb_spec n 62); [lia|].
  destruct (n =? 62); lia.
Qed.

Lemma code_chr_lt z : z < 128 -> code (chr z) < 128.
Proof.
  intros Hz. unfold code, chr.
  rewrite nat_ascii_embedding by lia. lia.
Qed.

Lemma b64encode_lt bs : Forall (fun b => b < 128) (b64encode bs).
Proof.
  induction bs as [|x|x y|x y z bs IH] using list_ind3;
    cbn [b64encode app];
    repeat (constructor; [first [apply b64_char_lt | lia]|]);
    first [constructor | exact IH].
Qed.

Lemma isascii_decode bs :
  Forall (fun b => b < 128) bs -> isascii (decode bs) = true.
Proof.
  induction 1 as [|b bs Hb _ IH]; cbn [decode isascii]; [reflexivity|].
  rewrite IH, andb_true_r. apply Z.ltb_lt, code_chr_lt, Hb.
Qed.

(** A computed signature is ASCII. *)
Lemma isascii_signature_of s : isascii (MaibSdk.signature_of s) = true.
Proof. apply isascii_decode, b64encode_lt. Qed.

(** Against a computed signature, [compare_digest] answers [True] exactly on
    the same string. *)
Lemma compare_digest_signature s sig :
  compare_digest (VStr (MaibSdk.signature_of s)) (VStr sig) = Ok true
  <-> sig = MaibSdk.signature_of s.
Proof.
  cbn [compare_digest]. rewrite isascii_signature_of. cbn [andb]. split.
  - destruct (isascii sig); [|discriminate].
    intros H. injection H as H. apply String.eqb_eq in H. congruence.
  - intros ->. rewrite isascii_signature_of, String.eqb_refl. reflexivity.
Qed.

Lemma truthy_VStr s : s <> "" -> truthy (VStr s) = true.
Proof. destruct s; [congruence | reflexivity]. Qed.

Lemma truthy_VDict d : d <> [] -> truthy (VDict d) = true.
Proof. destruct d; [congruence | reflexivity]. Qed.

Lemma str_or_empty_string_form repr v :
  MaibSdk.str_or_empty repr v = VStr (Signature.string_form repr v).
Proof. destruct v; reflexivity. Qed.

End CodecFacts.

(** * Facts about joining the values and about the two variants *)

Module CallbackFacts.

Import Signature.

Lemma setitem_values (P : pyval -> Prop) d k v :
  Forall P (values d) -> P v -> Forall P (values (setitem d k v)).
Proof.
  unfold values. intros Hd Hv.
  induction d as [|[k0 v0] d IH]; cbn [setitem map snd].
  - constructor; [exact Hv | constructor].
  - inversion Hd; subst.
    destruct (String.eqb k0 k); cbn [map snd]; constructor; auto.
Qed.

Lemma dict_comprehension_values (P : pyval -> Prop) f l :
  (forall v, P (f v)) -> Forall P (values (dict_comprehension f l)).
Proof.
  intros Hf. unfold dict_comprehension.
  enough (H : forall acc, Forall P (values acc) ->
              Forall P (values (fold_left
                (fun d kv => setitem d (fst kv) (f (snd kv))) l acc))).
  { apply H. constructor. }
  induction l as [|kv l IH]; intros acc Hacc; cbn [fold_left];
    [exact Hacc|].
  apply IH, setitem_values; [exact Hacc | apply Hf].
Qed.

Lemma str_items_total l :
  Forall is_VStr l -> exists ss, str_items l = Ok ss.
Proof.
  induction 1 as [|v l [s ->] _ [ss IH]]; cbn [str_items].
  - exists []. reflexivity.
  - rewrite IH. exists (s :: ss). reflexivity.
Qed.

Lemma join_total sep l secret :
  Forall is_VStr l -> exists s, join sep (l ++ [VStr secret]) = Ok s.
Proof.
  intros Hl. unfold join.
  destruct (str_items_total (l ++ [VStr secret])) as [ss Hss].
  - apply Forall_app. split; [exact Hl|].
    constructor; [exists secret; reflexivity | constructor].
  - rewrite Hss. eexists. reflexivity.
Qed.

Lemma isascii_nonempty s : isascii s = false -> s <> "".
Proof. intros H ->. discriminate H. Qed.

(** [join] raises nothing but TypeError. *)
Lemma str_items_raises l e : str_items l = Raise e -> e = TypeError.
Proof.
  revert e. induction l as [|v l IH]; intros e; cbn [str_items];
    [discriminate|].
  destruct v; try (intros H; injection H as <-; reflexivity).
  destruct (str_items l) as [ss|e']; cbn [bind]; [discriminate|].
  intros H. injection H as <-. apply IH. reflexivity.
Qed.

Lemma join_raises sep l e : join sep l = Raise e -> e = TypeError.
Proof.
  unfold join. destruct (str_items l) as [ss|e'] eqn:Hss; cbn [bind];
    [discriminate|].
  intros H. injection H as <-. apply (str_items_raises l), Hss.
Qed.

End CallbackFacts.

Module VariantFacts.

Lemma insert_item_In x y l : In x (insert_item y l) -> x = y \/ In x l.
Proof.
  induction l as [|z l IH]; cbn [insert_item In].
  - intros [<-|[]]. left. reflexivity.
  - destruct (String.leb (fst y) (fst z)); cbn [In].
    + intros [<-|[<-|H]]; auto.
    + intros [<-|H]; auto. destruct (IH H); auto.
Qed.

Lemma sorted_In x l : In x (sorted l) -> In x l.
Proof.
  induction l as [|y l IH]; cbn [sorted In]; [tauto|].
  intros H. destruct (insert_item_In _ _ _ H) as [->|H']; auto.
Qed.

Lemma dict_comprehension_ext f g l :
  (forall kv, In kv l -> f (snd kv) = g (snd kv)) ->
  dict_comprehension f l = dict_comprehension g l.
Proof.
  unfold dict_comprehension. generalize (@nil (string * pyval)).
  induction l as [|kv l IH]; intros acc Hfg; cbn [fold_left];
    [reflexivity|].
  rewrite (Hfg kv (or_introl eq_refl)). apply IH.
  intros kv' Hin. apply Hfg. right. exact Hin.
Qed.

End VariantFacts.

(** * Facts about the validator *)

Module ValidatorFacts.

Import MaibApi Contract ContractFacts ItemFacts Validator.



















End ValidatorFacts.

(** * Request validation *)

Import MaibApi Contract ContractFacts ItemFacts.



(** C5 as stated fails: a bag whose clientIp is the empty string passes
    validation. *)
Lemma empty_clientIp_is_accepted :
  dict_get Examples.empty_ip_bag "clientIp" = VStr ""
  /\ validate_pay_params Examples.empty_ip_bag REQUIRED_PAY_PARAMS = Ok true.
Proof. split; reflexivity. Qed.

(** C5, amended.  For clientIp, email, callbackUrl, okUrl and failUrl the
    rule accepts a value exactly when it is a string, the empty string
    included: a value that is present and not a string makes validation
    fail, and a bag that validates with some string in the field still
    validates with the empty string there. *)
Theorem unchecked_format_fields_accept_any_string
    (field : string) (data : dict) (required : list string) :
  In field unchecked_format_fields ->
  (forall v, rule_of field v = Ok tt <-> isinstance_str v = true)
  /\ (is_none (dict_get data field) = false ->
      isinstance_str (dict_get data field) = false ->
      exists e, validate_pay_params data required = Raise e)
  /\ (forall s, dict_get data field = VStr s ->
      validate_pay_params data required = Ok true ->
      validate_pay_params (setitem data field (VStr "")) required = Ok true).
Proof.
  intros Hfield.
  assert (Hnames : In field (map fst field_rules)).
  { cbn in Hfield |- *. intuition. }
  assert (Hrule : forall v,
             rule_of field v = Ok tt <-> isinstance_str v = true).
  { intros v. cbn in Hfield.
    destruct Hfield as [<-|[<-|[<-|[<-|[<-|[]]]]]]; cbn;
      destruct (isinstance_str v); cbn; split; congruence. }
  split; [exact Hrule|]. split.
  - intros Hpresent Hstr.
    apply (validate_pay_params_fails data required
             (field_constraint data (field, rule_of field))
             (match rule_of field (dict_get data field) with
              | Raise e => e | Ok _ => TypeError end)).
    + apply field_constraint_in, Hnames.
    + unfold field_constraint, if_not_none. cbn [fst snd].
      rewrite Hpresent. cbn [negb].
      destruct (rule_of field (dict_get data field)) as [[]|e] eqn:Hr.
      * apply Hrule in Hr. congruence.
      * reflexivity.
  - intros s Hs. rewrite !validate_pay_params_ok. unfold constraints.
    rewrite !Forall_app. intros [Hreq Htab]. split.
    + rewrite Forall_map in *. revert Hreq. apply Forall_impl.
      intros p. unfold holds, required_constraint.
      rewrite dict_get_setitem.
      destruct (String.eqb_spec field p) as [<-|_]; [|tauto].
      reflexivity.
    + rewrite Forall_map in *. rewrite Forall_forall in *.
      intros [f r] Hin. specialize (Htab (f, r) Hin). revert Htab.
      unfold holds, field_constraint. cbn [fst snd].
      rewrite dict_get_setitem.
      destruct (String.eqb_spec field f) as [<-|_]; [|tauto].
      intros _. cbn [if_not_none is_none negb].
      cbn in Hfield.
      destruct Hfield as [<-|[<-|[<-|[<-|[<-|[]]]]]];
        cbn in Hin; repeat (destruct Hin as [Hin|Hin];
          [first [discriminate Hin | (injection Hin as <-; reflexivity)]|]);
        contradiction.
Qed.

(** The amended C5 at a bag for [pay]: its clientIp replaced by the empty
    string, it still validates. *)
Lemma unchecked_format_fields_witness :
  validate_pay_params (setitem Examples.pay_bag "clientIp" (VStr ""))
    REQUIRED_PAY_PARAMS = Ok true.
Proof.
  destruct (unchecked_format_fields_accept_any_string
              "clientIp" Examples.pay_bag REQUIRED_PAY_PARAMS)
    as (_ & _ & H).
  - left. reflexivity.
  - apply (H "127.0.0.1"); reflexivity.
Defined.

(** C6.  For amount (minimum 1), confirmAmount and refundAmount (minimum
    0.01) and delivery (minimum 0): a number strictly below the minimum
    breaks the field's rule with that field's error, so validation of a bag
    holding it fails, with that very error when nothing checked earlier is
    violated; a number equal to the minimum meets the rule.  The amount 1
    passes and the amount 0.999 fails. *)
Theorem minimum_bounds_enforced
    (field : string) (bound v : pyval) (data : dict) (required : list string) :
  In (field, bound) minimum_bounds ->
  isinstance_float_int v = true ->
  (num_lt v bound = true ->
   exists msg,
     rule_of field v = Raise (invalid msg)
     /\ (dict_get data field = v ->
         (exists e, validate_pay_params data required = Raise e)
         /\ (no_violation_before data required field ->
             validate_pay_params data required = Raise (invalid msg))))
  /\ (num_eq v bound = true -> rule_of field v = Ok tt)
  /\ rule_of "amount" (VInt 1) = Ok tt
  /\ rule_of "amount" (VFloat float_0_999) = Raise (invalid amount_msg).
Proof.
  intros Hin Hnum.
  assert (Hnames : In field (map fst field_rules)).
  { cbn in Hin |- *.
    destruct Hin as [H|[H|[H|[H|[]]]]]; injection H as <- _; intuition. }
  assert (Hrule : rule_of field v
                  = raise_if (num_lt v bound)
                      (invalid (match rule_of field VNone with
                                | Raise (MaibPaymentException m) => m
                                | _ => "" end))).
  { cbn in Hin.
    destruct Hin as [H|[H|[H|[H|[]]]]]; injection H as <- <-; cbn;
      rewrite Hnum; reflexivity. }
  repeat split.
  - intros Hlt. eexists. rewrite Hrule, Hlt. cbn [raise_if].
    split; [reflexivity|]. intros Hget.
    assert (Hc : field_constraint data (field, rule_of field)
                 = Raise (invalid (match rule_of field VNone with
                                   | Raise (MaibPaymentException m) => m
                                   | _ => "" end))).
    { unfold field_constraint, if_not_none. cbn [fst snd]. rewrite Hget.
      destruct v; try discriminate Hnum; cbn [is_none negb];
        rewrite Hrule, Hlt; reflexivity. }
    split.
    + eapply validate_pay_params_fails; [|exact Hc].
      apply field_constraint_in, Hnames.
    + intros Hpre.
      apply (validate_pay_params_at data required field); assumption.
  - intros Heq. rewrite Hrule, (num_eq_not_lt _ _ Heq). reflexivity.
Qed.

(** C6 at the amount 0.999 in a bag for [pay]: validation fails. *)
Lemma minimum_bounds_enforced_witness :
  exists e,
    validate_pay_params
      (setitem Examples.pay_bag "amount" (VFloat float_0_999))
      REQUIRED_PAY_PARAMS = Raise e.
Proof.
  destruct (minimum_bounds_enforced "amount" (VInt 1) (VFloat float_0_999)
              (setitem Examples.pay_bag "amount" (VFloat float_0_999))
              REQUIRED_PAY_PARAMS) as (H & _).
  - left. reflexivity.
  - reflexivity.
  - destruct (H eq_refl) as (msg & _ & Hv).
    destruct (Hv eq_refl) as [He _]. exact He.
Defined.



(** X5.  The currency rule accepts exactly the strings MDL, EUR and USD,
    whatever the case of the letters; any other value present in the bag
    makes validation fail. *)
Theorem currency_rule (v : pyval) :
  (rule_of "currency" v = Ok tt
   <-> v = VStr "MDL" \/ v = VStr "EUR" \/ v = VStr "USD")
  /\ rule_of "currency" (VStr "mdl") = Raise (invalid currency_msg)
  /\ (forall data required,
        dict_get data "currency" = v -> v <> VNone ->
        rule_of "currency" v <> Ok tt ->
        exists e, validate_pay_params data required = Raise e).
Proof.
  split; [|split; [reflexivity|]].
  - unfold rule_of. cbn [rule_in field_rules String.eqb Ascii.eqb Bool.eqb].
    destruct v; cbn; try (split; [discriminate | intros [H|[H|H]]; discriminate H]).
    unfold not_in. cbn [existsb str_eq orb].
    destruct (String.eqb_spec "MDL" s) as [<-|H1].
    { split; auto. }
    destruct (String.eqb_spec "EUR" s) as [<-|H2].
    { split; auto. }
    destruct (String.eqb_spec "USD" s) as [<-|H3].
    { split; auto. }
    cbn. split; [discriminate|]. intros [H|[H|H]]; congruence.
  - intros data required Hget Hpresent Hrule.
    destruct (rule_of "currency" v) as [[]|e] eqn:Hr; [congruence|].
    apply (validate_pay_params_fails data required
             (field_constraint data ("currency", rule_of "currency")) e).
    + apply field_constraint_in. cbn. intuition.
    + unfold field_constraint, if_not_none. cbn [fst snd]. rewrite Hget.
      destruct v; try congruence; exact Hr.
Qed.

(** X6.  [validate_access_token] rejects a null token and the empty string
    and accepts every other string. *)
Theorem validate_access_token_nonempty (token : string) :
  validate_access_token VNone = Raise (invalid token_msg)
  /\ validate_access_token (VStr token)
     = if (String.length token =? 0)%nat
       then Raise (invalid token_msg) else Ok tt.
Proof. split; [reflexivity|]. destruct token; reflexivity. Qed.

(** * Entity ids *)

(** C9.  In [validate_id_param], in [maib_api.py] and in [maibapi.py] alike,
    the branch that raises the 36-character message is never taken: an
    absent (null) or empty id raises the missing-id error, and any other
    string, of whatever length, is accepted. *)
Theorem validate_id_param_length_branch_unreachable (entity_id : pyval) :
  MaibApi.validate_id_param entity_id <> Raise (invalid invalid_id_msg)
  /\ MAIBAPI.validate_id_param entity_id <> Raise (invalid invalid_id_msg)
  /\ MaibApi.validate_id_param VNone = Raise (invalid missing_id_msg)
  /\ (forall s,
        MaibApi.validate_id_param (VStr s)
        = if (String.length s =? 0)%nat
          then Raise (invalid missing_id_msg)
          else Ok tt)
  /\ MAIBAPI.validate_id_param entity_id
     = MaibApi.validate_id_param entity_id.
Proof.
  assert (H : MaibApi.validate_id_param entity_id
              <> Raise (invalid invalid_id_msg)).
  { unfold MaibApi.validate_id_param.
    destruct entity_id as [|b|n|f|s|l|d]; cbn.
    - discriminate.
    - destruct b; discriminate.
    - destruct (n =? 0); discriminate.
    - destruct (xnum_of_float f) as [| |[] ?]; discriminate.
    - destruct s; discriminate.
    - destruct l; discriminate.
    - destruct d; discriminate. }
  repeat split; try exact H.
  intros s. destruct s; reflexivity.
Qed.

(** * Callback signature *)

Import OrderFacts CodecFacts Signature CallbackFacts VariantFacts.

(** C1.  For a callback with a non-empty secret, a non-empty signature and a
    non-empty result mapping, [validate_callback_signature] of [maib_sdk.py]
    returns [True] exactly when the signature is the base64 text of the
    SHA-256 digest of this string: the values of the result's entries taken
    in the code-point order of their keys, each in its string form with null
    as the empty string, followed by the secret as the last element, all
    joined by [:]. *)
Theorem validate_callback_signature_iff
    (repr : pyval -> string) (callback_data result entries : dict)
    (signature secret : string) :
  secret <> "" -> signature <> "" -> result <> [] ->
  lookup callback_data "signature" = Some (VStr signature) ->
  lookup callback_data "result" = Some (VDict result) ->
  Permutation entries result -> StronglySorted key_lt entries ->
  MaibSdk.validate_callback_signature repr (VDict callback_data) (VStr secret)
  = Ok true
  <-> signature = expected_signature repr entries secret.
Proof.
  intros Hsecret Hsig Hres Hgs Hgr Hperm Hsorted.
  unfold MaibSdk.validate_callback_signature.
  rewrite (truthy_VStr _ Hsecret). cbn [negb raise_if bind get].
  unfold dict_get. rewrite Hgs, Hgr.
  rewrite (truthy_VStr _ Hsig), (truthy_VDict _ Hres).
  cbn [negb orb raise_if bind items].
  rewrite (sorted_entries _ _ Hperm Hsorted).
  rewrite values_dict_comprehension by (apply key_lt_NoDup, Hsorted).
  unfold join.
  replace (map (fun kv => MaibSdk.str_or_empty repr (snd kv)) entries
           ++ [VStr secret])
    with (map VStr (map (fun kv => string_form repr (snd kv)) entries
                    ++ [secret])).
  - rewrite str_items_VStr. cbn [bind].
    apply compare_digest_signature.
  - rewrite map_app, map_map. cbn [map]. f_equal.
    apply map_ext. intros kv. symmetry. apply str_or_empty_string_form.
Qed.

(** C1 at a callback whose result holds [b] before [a] and a null value:
    signed over [:2:k], it verifies. *)
Lemma validate_callback_signature_iff_witness :
  MaibSdk.validate_callback_signature no_repr
    (VDict Examples.signed_callback) (VStr "k") = Ok true.
Proof.
  apply (validate_callback_signature_iff no_repr Examples.signed_callback
           [("b", VInt 2); ("a", VNone)] [("a", VNone); ("b", VInt 2)]
           "u7VZruBRbBaSFAe4bmVB26T2nq9XUZAjD6oX2T2F4O4=" "k").
  - discriminate.
  - discriminate.
  - discriminate.
  - reflexivity.
  - reflexivity.
  - apply perm_swap.
  - repeat constructor.
  - vm_compute. reflexivity.
Defined.

(** C2 at inputs on which the two variants part.  A null value is signed as
    the empty string by [maib_sdk.py] and as the text [None] by
    [maibsdk.py], so a signature valid for one is refused by the other; an
    empty secret and an empty result are errors in [maib_sdk.py] and are
    hashed in [maibsdk.py]. *)
Theorem callback_signature_variants_disagree (repr : pyval -> string) :
  (MaibSdk.validate_callback_signature repr
     Examples.null_value_callback (VStr "k") = Ok true
   /\ MAIBSDK.validate_callback_signature repr
        Examples.null_value_callback (VStr "k") = Ok false)
  /\ (MaibSdk.validate_callback_signature repr
        Examples.unsigned_callback (VStr "")
      = Raise (MaibPaymentException "Invalid signature key")
      /\ MAIBSDK.validate_callback_signature repr
           Examples.unsigned_callback (VStr "") = Ok false)
  /\ (MaibSdk.validate_callback_signature repr
        Examples.empty_result_callback (VStr "k")
      = Raise (MaibPaymentException
                 "Missing result or signature in callback data.")
      /\ MAIBSDK.validate_callback_signature repr
           Examples.empty_result_callback (VStr "k") = Ok false)
  /\ (MaibSdk.validate_callback_signature repr
        Examples.non_ascii_callback (VStr "k") = Raise TypeError
      /\ MAIBSDK.validate_callback_signature repr
           Examples.non_ascii_callback (VStr "k") = Ok false).
Proof. vm_compute. repeat split. Qed.

(** C3 on the inputs where it breaks.  With a non-empty secret, a
    non-empty result mapping and a signature that holds a code point outside
    ASCII, all three are present and non-empty, and
    [validate_callback_signature] of [maib_sdk.py] raises [TypeError] out of
    [hmac.compare_digest] instead of returning a boolean; on the same input
    the variant of [maibsdk.py], which compares with [==], returns
    [False]. *)
Theorem validate_callback_signature_non_ascii
    (repr : pyval -> string) (callback_data result : dict)
    (signature secret : string) :
  secret <> "" -> result <> [] ->
  lookup callback_data "signature" = Some (VStr signature) ->
  lookup callback_data "result" = Some (VDict result) ->
  isascii signature = false ->
  MaibSdk.validate_callback_signature repr (VDict callback_data) (VStr secret)
  = Raise TypeError
  /\ MAIBSDK.validate_callback_signature repr (VDict callback_data)
       (VStr secret) = Ok false.
Proof.
  intros Hsecret Hres Hgs Hgr Hascii.
  pose proof (isascii_nonempty _ Hascii) as Hsig.
  unfold MaibSdk.validate_callback_signature,
    MAIBSDK.validate_callback_signature, MAIBSDK.getitem.
  cbn [get bind]. unfold dict_get. rewrite Hgs, Hgr.
  rewrite (truthy_VStr _ Hsecret), (truthy_VStr _ Hsig),
    (truthy_VDict _ Hres).
  cbn [negb orb raise_if bind items]. split.
  - destruct (join_total ":"
                (values (dict_comprehension (MaibSdk.str_or_empty repr)
                           (sorted result))) secret) as [s Hs].
    + apply dict_comprehension_values. intros v. eexists. reflexivity.
    + rewrite Hs. cbn [bind compare_digest].
      rewrite Hascii, andb_false_r. reflexivity.
  - destruct (join_total ":"
                (values (dict_comprehension
                           (fun value => VStr (str repr value))
                           (sorted result))) secret) as [s Hs].
    + apply dict_comprehension_values. intros v. eexists. reflexivity.
    + rewrite Hs. cbn [bind str_eq]. f_equal.
      apply String.eqb_neq. intros Heq.
      rewrite <- Heq, isascii_signature_of in Hascii. discriminate.
Qed.

(** C3 at a callback whose signature is U+00E9. *)
Lemma validate_callback_signature_non_ascii_witness :
  MaibSdk.validate_callback_signature no_repr
    Examples.non_ascii_callback (VStr "k") = Raise TypeError
  /\ MAIBSDK.validate_callback_signature no_repr
       Examples.non_ascii_callback (VStr "k") = Ok false.
Proof.
  apply (validate_callback_signature_non_ascii no_repr _
           [("a", VStr "1")] e_acute "k").
  - discriminate.
  - discriminate.
  - reflexivity.
  - reflexivity.
  - reflexivity.
Defined.

(** X2.  On a callback that is a dict, [validate_callback_signature] of
    [maib_sdk.py] raises the SDK's error exactly when the secret, the
    signature or the result is absent or empty: the invalid-key error when
    the secret is, the missing-data error when the secret is given and the
    signature or the result is not. *)
Theorem validate_callback_signature_outcomes
    (repr : pyval -> string) (callback_data : dict) (signature_key : pyval) :
  let outcome :=
    MaibSdk.validate_callback_signature repr (VDict callback_data)
      signature_key in
  (sdk_error outcome
   <-> truthy signature_key = false
       \/ truthy (dict_get callback_data "signature") = false
       \/ truthy (dict_get callback_data "result") = false)
  /\ (truthy signature_key = false ->
      outcome = Raise (MaibPaymentException "Invalid signature key"))
  /\ (truthy signature_key = true ->
      truthy (dict_get callback_data "signature") = false
      \/ truthy (dict_get callback_data "result") = false ->
      outcome
      = Raise (MaibPaymentException
                 "Missing result or signature in callback data.")).
Proof.
  intros outcome. subst outcome.
  unfold MaibSdk.validate_callback_signature, sdk_error.
  cbn [get bind]. split; [|split].
  - destruct (truthy signature_key); cbn [negb raise_if bind].
    2:{ split; [intros _; left; reflexivity | intros _; eexists; reflexivity]. }
    destruct (truthy (dict_get callback_data "signature"));
      cbn [negb orb raise_if bind].
    2:{ split; [intros _; right; left; reflexivity
               | intros _; eexists; reflexivity]. }
    destruct (truthy (dict_get callback_data "result"));
      cbn [negb orb raise_if bind].
    2:{ split; [intros _; right; right; reflexivity
               | intros _; eexists; reflexivity]. }
    split; [|intros [H|[H|H]]; discriminate H].
    intros [msg H]. exfalso. revert H.
    destruct (items (dict_get callback_data "result")) as [its|e] eqn:Hits;
      cbn [bind].
    + destruct (join _ _) as [s|e] eqn:Hj; cbn [bind].
      * destruct (dict_get callback_data "signature"); cbn [compare_digest];
          try discriminate.
        destruct (isascii _ && isascii _); discriminate.
      * rewrite (join_raises _ _ _ Hj). discriminate.
    + destruct (dict_get callback_data "result"); cbn [items] in Hits;
        try (injection Hits as <-; discriminate). discriminate.
  - intros ->. reflexivity.
  - intros -> H. cbn [negb raise_if bind].
    replace (negb (truthy (dict_get callback_data "signature"))
             || negb (truthy (dict_get callback_data "result"))) with true;
      [reflexivity|].
    destruct H as [-> | ->]; [reflexivity|].
    destruct (truthy _); reflexivity.
Qed.

(** X3.  On a callback with a non-empty secret, a non-empty ASCII signature
    and a non-empty result mapping without null values, the two variants of
    [validate_callback_signature] give the same outcome. *)
Theorem callback_signature_variants_agree
    (repr : pyval -> string) (callback_data result : dict)
    (signature secret : string) :
  lookup callback_data "signature" = Some (VStr signature) ->
  lookup callback_data "result" = Some (VDict result) ->
  secret <> "" -> signature <> "" -> result <> [] ->
  isascii signature = true ->
  Forall (fun kv => snd kv <> VNone) result ->
  MAIBSDK.validate_callback_signature repr (VDict callback_data) (VStr secret)
  = MaibSdk.validate_callback_signature repr (VDict callback_data)
      (VStr secret).
Proof.
  intros Hgs Hgr Hsecret Hsig Hres Hascii Hnone.
  unfold MAIBSDK.validate_callback_signature,
    MaibSdk.validate_callback_signature, MAIBSDK.getitem.
  cbn [get bind]. unfold dict_get. rewrite Hgs, Hgr.
  rewrite (truthy_VStr _ Hsecret), (truthy_VStr _ Hsig),
    (truthy_VDict _ Hres).
  cbn [negb orb raise_if bind items].
  rewrite (dict_comprehension_ext (fun value => VStr (str repr value))
             (MaibSdk.str_or_empty repr)).
  - destruct (join _ _) as [s|e]; cbn [bind compare_digest str_eq];
      [|reflexivity].
    rewrite isascii_signature_of, Hascii. reflexivity.
  - intros kv Hin. apply sorted_In in Hin.
    rewrite Forall_forall in Hnone. specialize (Hnone kv Hin).
    destruct (snd kv); try reflexivity. congruence.
Qed.

(** X3 at a callback with a wrong signature. *)
Lemma callback_signature_variants_agree_witness :
  MAIBSDK.validate_callback_signature no_repr
    Examples.unsigned_callback (VStr "k")
  = MaibSdk.validate_callback_signature no_repr
      Examples.unsigned_callback (VStr "k").
Proof.
  apply (callback_signature_variants_agree no_repr _ [("a", VStr "1")] "x").
  - reflexivity.
  - reflexivity.
  - discriminate.
  - discriminate.
  - discriminate.
  - reflexivity.
  - repeat constructor. discriminate.
Defined.

(** X4.  The outcome of [validate_callback_signature] does not depend on the
    order in which the result mapping holds its entries. *)
Theorem validate_callback_signature_order_independent
    (repr : pyval -> string) (signature signature_key : pyval)
    (result1 result2 : dict) :
  Permutation result1 result2 -> NoDup (map fst result1) ->
  MaibSdk.validate_callback_signature repr
    (VDict [("signature", signature); ("result", VDict result1)])
    signature_key
  = MaibSdk.validate_callback_signature repr
      (VDict [("signature", signature); ("result", VDict result2)])
      signature_key.
Proof.
  intros Hperm Hnd. unfold MaibSdk.validate_callback_signature.
  cbn [get bind dict_get lookup String.eqb Ascii.eqb Bool.eqb].
  replace (truthy (VDict result2)) with (truthy (VDict result1)).
  - cbn [items bind]. rewrite (sorted_permutation _ _ Hperm Hnd).
    reflexivity.
  - cbn [truthy]. rewrite (Permutation_length Hperm). reflexivity.
Qed.

(** X4 at a result whose two entries are swapped. *)
Lemma validate_callback_signature_order_witness :
  MaibSdk.validate_callback_signature no_repr
    (VDict [("signature", VStr "x");
            ("result", VDict [("b", VInt 2); ("a", VNone)])]) (VStr "k")
  = MaibSdk.validate_callback_signature no_repr
      (VDict [("signature", VStr "x");
              ("result", VDict [("a", VNone); ("b", VInt 2)])]) (VStr "k").
Proof.
  apply (validate_callback_signature_order_independent no_repr).
  - apply perm_swap.
  - repeat constructor; cbn; intuition discriminate.
Defined.

(** * Response envelope *)

(** C7 on the inputs where it breaks.  On an envelope whose ok is not true
    and whose [errors] is the empty list, [handle_response] raises
    [IndexError] out of [response_errors[0]], and no error of the SDK's
    own class. *)
Theorem handle_response_empty_errors
    (repr : pyval -> string) (response : dict) (endpoint : string) :
  is_True (dict_get response "ok") = false ->
  dict_get response "errors" = VList [] ->
  MaibSdk.handle_response repr (VDict response) endpoint = Raise IndexError
  /\ ~ (exists msg,
          MaibSdk.handle_response repr (VDict response) endpoint
          = Raise (MaibPaymentException msg)).
Proof.
  intros Hok Herrors.
  assert (H : MaibSdk.handle_response repr (VDict response) endpoint
              = Raise IndexError).
  { unfold MaibSdk.handle_response. cbn [get bind].
    rewrite Hok, andb_false_r, Herrors. reflexivity. }
  split; [exact H|]. intros [msg Hmsg]. congruence.
Qed.

(** C7 at the envelope [{ok: false, errors: []}]. *)
Lemma handle_response_empty_errors_witness :
  MaibSdk.handle_response no_repr Examples.empty_errors_envelope "pay"
  = Raise IndexError.
Proof.
  apply (handle_response_empty_errors no_repr
           [("ok", VBool false); ("errors", VList [])] "pay");
    reflexivity.
Defined.

(** X1.  The outcomes of [handle_response] on the envelopes it is written
    for: the result unchanged when ok is true and a result is there, the
    missing-result error when ok is true without a result, the gateway
    error built from the first entry of [errors] alone when ok is not true,
    and the malformed-envelope error when ok is not true and there are no
    errors. *)
Theorem handle_response_cases
    (repr : pyval -> string) (response : dict) (endpoint : string) :
  (dict_get response "ok" = VBool true ->
   dict_get response "result" <> VNone ->
   MaibSdk.handle_response repr (VDict response) endpoint
   = Ok (dict_get response "result"))
  /\ (dict_get response "ok" = VBool true ->
      dict_get response "result" = VNone ->
      MaibSdk.handle_response repr (VDict response) endpoint
      = Raise (MaibPaymentException (MaibSdk.missing_result_msg endpoint)))
  /\ (forall error rest,
        is_True (dict_get response "ok") = false ->
        dict_get response "errors" = VList (VDict error :: rest) ->
        MaibSdk.handle_response repr (VDict response) endpoint
        = Raise (MaibPaymentException
                   (MaibSdk.gateway_error_msg endpoint
                      (str repr (dict_get error "errorMessage"))
                      (str repr (dict_get error "errorCode")))))
  /\ (is_True (dict_get response "ok") = false ->
      dict_get response "errors" = VNone ->
      MaibSdk.handle_response repr (VDict response) endpoint
      = Raise (MaibPaymentException (MaibSdk.malformed_msg endpoint))).
Proof.
  unfold MaibSdk.handle_response. cbn [get bind].
  split; [|split; [|split]].
  - intros -> Hres. cbn [is_none is_True negb andb].
    destruct (dict_get response "result"); try reflexivity. congruence.
  - intros -> ->. reflexivity.
  - intros error rest Hok ->. rewrite Hok, andb_false_r. reflexivity.
  - intros Hok ->. rewrite Hok, andb_false_r. reflexivity.
Qed.

(** * Token requests *)

Lemma handle_response_not_token_exception repr response endpoint msg :
  MAIBSDK.handle_response repr response endpoint
  <> Raise (MaibTokenException msg).
Proof.
  unfold MAIBSDK.handle_response, get, first_item, bind.
  destruct response; cbn; try discriminate.
  case_split; discriminate.
Qed.

(** C10.  [generate_token] raises its precondition error exactly when
    project id and project secret are both null, and then sends nothing.
    With only a project secret it raises no validation error and sends the
    request with an empty body; with only a project id it sends that value
    as [refreshToken].  In both cases the outcome is the gateway's answer
    passed through [handle_response], or the HTTP error. *)
Theorem generate_token_precondition
    (repr : pyval -> string) (gateway : MAIBAuth.request -> result pyval)
    (project_id project_secret : pyval) (sent : list MAIBAuth.request) :
  let outcome :=
    MAIBAuth.generate_token repr gateway project_id project_secret sent in
  let answer (rq : MAIBAuth.request) :=
    match gateway rq with
    | Raise _ => Raise (MaibTokenException MAIBAuth.http_error_msg)
    | Ok response =>
        MAIBSDK.handle_response repr response MAIBSDK.GET_TOKEN
    end in
  (fst outcome = Raise (MaibTokenException MAIBAuth.required_msg)
   <-> project_id = VNone /\ project_secret = VNone)
  /\ (project_id = VNone -> project_secret = VNone -> snd outcome = sent)
  /\ (project_id = VNone -> project_secret <> VNone ->
      let rq := MAIBAuth.mk_request "POST" "generate-token" [] in
      outcome = (answer rq, sent ++ [rq]))
  /\ (project_id <> VNone -> project_secret = VNone ->
      let rq := MAIBAuth.mk_request "POST" "generate-token"
                  [("refreshToken", project_id)] in
      outcome = (answer rq, sent ++ [rq])).
Proof.
  intros outcome answer. subst outcome.
  unfold MAIBAuth.generate_token, MAIBAuth.send_request.
  split; [split|split; [|split]].
  - destruct project_id, project_secret; cbn [is_none andb negb fst];
      try (intros _; split; reflexivity);
      match goal with
      | |- context [gateway ?rq] =>
          destruct (gateway rq) as [response|ex]; cbn [fst]; intros H;
          [ elim (handle_response_not_token_exception _ _ _ _ H)
          | discriminate H ]
      end.
  - intros [-> ->]. reflexivity.
  - intros -> ->. reflexivity.
  - intros -> Hs. subst answer. cbv zeta.
    destruct project_secret; try congruence; cbn [is_none andb negb];
      destruct (gateway _); reflexivity.
  - intros Hp ->. subst answer. cbv zeta.
    destruct project_id; try congruence; cbn [is_none andb negb setitem];
      destruct (gateway _); reflexivity.
Qed.

(** C10 with only a project secret, against a gateway that grants a token:
    one request goes out, with an empty body, and the token comes back. *)
Lemma generate_token_precondition_witness :
  MAIBAuth.generate_token no_repr Examples.token_gateway
    VNone (VStr "secret") []
  = (Ok (VDict [("accessToken", VStr "t")]),
     [MAIBAuth.mk_request "POST" "generate-token" []]).
Proof.
  destruct (generate_token_precondition no_repr Examples.token_gateway
              VNone (VStr "secret") []) as (_ & _ & H & _).
  rewrite (H eq_refl); [reflexivity | discriminate].
Defined.

(** * Facts about fields without a rule *)

Module FrameFacts.

Lemma rule_in_unique table f r :
  NoDup (map fst table) -> In (f, r) table -> rule_in table f = r.
Proof.
  induction table as [|[g r'] table IH]; cbn [map fst In rule_in];
    [tauto|].
  intros Hnd [Heq|Hin].
  - injection Heq as -> ->. rewrite String.eqb_refl. reflexivity.
  - inversion Hnd as [|? ? Hnotin Hnd']; subst.
    destruct (String.eqb_spec g f) as [->|_]; [|auto].
    elim Hnotin. apply in_map_iff. exists (f, r). auto.
Qed.

Lemma field_names_NoDup : NoDup (map fst field_rules).
Proof.
  cbn. repeat (constructor; [cbn; intuition discriminate|]). constructor.
Qed.

Lemma rule_of_unique f r : In (f, r) field_rules -> rule_of f = r.
Proof. apply rule_in_unique, field_names_NoDup. Qed.

Lemma rule_in_unknown table f :
  ~ In f (map fst table) -> rule_in table f = fun _ => Ok tt.
Proof.
  induction table as [|[g r] table IH]; cbn [map fst In rule_in];
    [reflexivity|].
  intros Hnotin. destruct (String.eqb_spec g f) as [->|_]; [tauto|].
  apply IH. tauto.
Qed.

(** Putting a value that meets the rule of its field into a valid bag
    leaves the bag valid. *)
Lemma validate_pay_params_setitem_ok data required field v :
  is_none v = false -> rule_of field v = Ok tt ->
  validate_pay_params data required = Ok true ->
  validate_pay_params (setitem data field v) required = Ok true.
Proof.
  intros Hv Hrule. rewrite !validate_pay_params_ok. unfold constraints.
  rewrite !Forall_app. intros [Hreq Htab]. split.
  - rewrite Forall_map in *. revert Hreq. apply Forall_impl.
    intros p. unfold holds, required_constraint.
    rewrite dict_get_setitem.
    destruct (String.eqb_spec field p) as [<-|_]; [|tauto].
    rewrite Hv. reflexivity.
  - rewrite Forall_map in *. rewrite Forall_forall in *.
    intros [f r] Hin. specialize (Htab (f, r) Hin). revert Htab.
    unfold holds, field_constraint. cbn [fst snd].
    rewrite dict_get_setitem.
    destruct (String.eqb_spec field f) as [->|_]; [|tauto].
    intros _. unfold if_not_none. rewrite Hv. cbn [negb].
    rewrite <- (rule_of_unique f r Hin). exact Hrule.
Qed.

(** A field the table does not know and the operation does not require has
    no part in the outcome. *)
Lemma validate_pay_params_frame data required field v :
  ~ In field (map fst field_rules) -> ~ In field required ->
  validate_pay_params (setitem data field v) required
  = validate_pay_params data required.
Proof.
  intros Hunknown Hreq. rewrite !validate_pay_params_table.
  unfold constraints.
  replace (map (required_constraint (setitem data field v)) required)
    with (map (required_constraint data) required).
  replace (map (field_constraint (setitem data field v)) field_rules)
    with (map (field_constraint data) field_rules).
  - reflexivity.
  - apply map_ext_in. intros [f r] Hin. unfold field_constraint.
    cbn [fst snd]. rewrite dict_get_setitem.
    destruct (String.eqb_spec field f) as [->|_]; [|reflexivity].
    elim Hunknown. apply in_map_iff. exists (f, r). auto.
  - apply map_ext_in. intros p Hp. unfold required_constraint.
    rewrite dict_get_setitem.
    destruct (String.eqb_spec field p) as [<-|_]; [contradiction|].
    reflexivity.
Qed.

End FrameFacts.

(** * Facts about the operations *)

Module ApiFacts.

Import MaibApi Contract ContractFacts Tables.

Lemma call_execute text self op data token sent :
  Api.call text self op data token sent
  = Api.execute_pay_operation text self (endpoint_of op) data token
      (required_params_of op) "POST" sent.
Proof. destruct op; reflexivity. Qed.

Lemma validate_access_token_str t :
  t <> "" -> validate_access_token (VStr t) = Ok tt.
Proof. destruct t; [congruence | reflexivity]. Qed.

Lemma validate_pay_params_true data required v :
  validate_pay_params data required = Ok v -> v = true.
Proof.
  rewrite validate_pay_params_table.
  destruct (first_failure _) as [[]|e]; cbn [bind]; congruence.
Qed.

Lemma prepare_bearer repr method endpoint body t :
  t <> "" ->
  Transport.prepare repr method endpoint body (VStr t) VNone
  = request_of method endpoint body t.
Proof.
  intros Ht. unfold Transport.prepare, Transport.build_url, request_of.
  rewrite (CodecFacts.truthy_VStr t Ht). reflexivity.
Qed.

Lemma created_send older repr http method endpoint body t sent :
  t <> "" ->
  let rq := request_of method endpoint body t in
  Api.client_send_request (created older repr http) method endpoint body
    (VStr t) VNone sent
  = (match http rq with
     | Raise ex => Raise ex
     | Ok response =>
         if negb older && negb (Http.ok response) then Ok VNone
         else Http.body response
     end, sent ++ [rq]).
Proof.
  intros Ht rq. subst rq.
  destruct older; cbn [created MaibApiRequest.create MAIBAPIRequest.create
                       Api.client_send_request];
    unfold Transport.send_request, Transport.send_request_legacy;
    rewrite (prepare_bearer repr _ _ _ t Ht);
    destruct (http _) as [response|ex]; cbn [negb andb]; try reflexivity.
  destruct (Http.ok response); reflexivity.
Qed.

End ApiFacts.

Module EntityFacts.

Import MaibApi Tables ApiFacts.

Lemma validate_id_param_str i :
  i <> "" -> validate_id_param (VStr i) = Ok tt.
Proof. destruct i; [congruence | reflexivity]. Qed.

Lemma prepare_entity repr method endpoint i t :
  i <> "" -> t <> "" ->
  Transport.prepare repr method endpoint VNone (VStr t) (VStr i)
  = request_of method (endpoint ++ "/" ++ i) VNone t.
Proof.
  intros Hi Ht. unfold Transport.prepare, Transport.build_url, request_of.
  rewrite (CodecFacts.truthy_VStr t Ht), (CodecFacts.truthy_VStr i Hi).
  reflexivity.
Qed.

Lemma entity_operation_cases older text repr http endpoint method
    (entity_id token : pyval) sent :
  let outcome :=
    Api.execute_entity_id_operation text (created older repr http) endpoint
      entity_id token method sent in
  (entity_id = VNone \/ entity_id = VStr "" ->
   outcome
   = (Raise (MaibPaymentException (Api.invalid_request_msg missing_id_msg)),
      sent))
  /\ (forall i, entity_id = VStr i -> i <> "" ->
      token = VNone \/ token = VStr "" ->
      outcome
      = (Raise (MaibPaymentException (Api.invalid_request_msg token_msg)),
         sent))
  /\ (forall i t, entity_id = VStr i -> i <> "" ->
      token = VStr t -> t <> "" ->
      snd outcome
      = sent ++ [request_of method (endpoint ++ "/" ++ i) VNone t]).
Proof.
  intros outcome. subst outcome. unfold Api.execute_entity_id_operation.
  split; [|split].
  - intros [->| ->]; reflexivity.
  - intros i -> Hi Htoken. rewrite (validate_id_param_str i Hi). cbn [bind].
    destruct Htoken as [->| ->]; reflexivity.
  - intros i t -> Hi -> Ht. rewrite (validate_id_param_str i Hi). cbn [bind].
    rewrite (validate_access_token_str t Ht).
    unfold Api.send_request.
    destruct older; cbn [created MaibApiRequest.create MAIBAPIRequest.create
                         Api.client_send_request];
      unfold Transport.send_request, Transport.send_request_legacy;
      rewrite (prepare_entity repr _ _ i t Hi Ht);
      destruct (http _) as [response|ex]; try reflexivity.
    + destruct (Http.body response); reflexivity.
    + destruct (negb (Http.ok response)); [reflexivity|].
      destruct (Http.body response); reflexivity.
Qed.

End EntityFacts.

Import FrameFacts Tables ApiFacts EntityFacts.

(** A rule that raises on the value a bag holds makes validation fail. *)
Lemma violated_rule_fails data required field e :
  In field (map fst field_rules) ->
  is_none (dict_get data field) = false ->
  rule_of field (dict_get data field) = Raise e ->
  exists e', validate_pay_params data required = Raise e'.
Proof.
  intros Hin Hpresent Hrule.
  apply (validate_pay_params_fails data required
           (field_constraint data (field, rule_of field)) e).
  - apply field_constraint_in, Hin.
  - unfold field_constraint, if_not_none. cbn [fst snd].
    rewrite Hpresent. exact Hrule.
Qed.

(** The item loop calls [get] on each element. *)
Lemma validate_item_not_dict item :
  is_dict item = false -> validate_item item = Raise AttributeError.
Proof. destruct item; try reflexivity. discriminate. Qed.

(** X7.  The eight fields that hold a string of a set length (billerId 36
    and billerExpiry 4 and language 2 exactly; payId and orderId at most
    36, description 124, clientName 128, phone 40): a bag that validates
    still validates with a string of a fitting length in such a field (for
    the fields with a maximum the empty string fits); a bag that holds a
    string of another length there, or a value that is not a string and
    not null, fails validation. *)
Theorem string_length_rules
    (field : string) (fits : Z -> bool) (s : string)
    (data : dict) (required : list string) :
  In (field, fits) length_rules ->
  (fits (Z.of_nat (String.length s)) = true ->
   validate_pay_params data required = Ok true ->
   validate_pay_params (setitem data field (VStr s)) required = Ok true)
  /\ (fits (Z.of_nat (String.length s)) = false ->
      dict_get data field = VStr s ->
      exists e, validate_pay_params data required = Raise e)
  /\ (forall v, dict_get data field = v ->
      is_none v = false -> isinstance_str v = false ->
      exists e, validate_pay_params data required = Raise e).
Proof.
  intros Hin.
  assert (Hnames : In field (map fst field_rules)).
  { cbn in Hin |- *.
    repeat (destruct Hin as [Hin|Hin];
            [injection Hin as <- _; intuition|]). contradiction. }
  assert (Hrule : forall v,
             rule_of field v = Ok tt
             <-> exists t, v = VStr t
                           /\ fits (Z.of_nat (String.length t)) = true).
  { intros v. cbn in Hin.
    repeat (destruct Hin as [Hin|Hin]; [injection Hin as <- <-; len_rule v|]).
    contradiction. }
  split; [|split].
  - intros Hfit. apply validate_pay_params_setitem_ok; [reflexivity|].
    apply Hrule. exists s. auto.
  - intros Hfit Hget.
    destruct (rule_of field (VStr s)) as [[]|e] eqn:Hr.
    + apply Hrule in Hr. destruct Hr as (t & Ht & Hfit').
      injection Ht as <-. congruence.
    + apply (violated_rule_fails data required field e Hnames);
        rewrite Hget; [reflexivity | exact Hr].
  - intros v Hget Hpresent Hstr.
    destruct (rule_of field v) as [[]|e] eqn:Hr.
    + apply Hrule in Hr. destruct Hr as (t & -> & _). discriminate Hstr.
    + apply (violated_rule_fails data required field e Hnames);
        rewrite Hget; assumption.
Qed.

(** X7 at the language [ro] added to a bag for [pay]. *)
Lemma string_length_rules_witness :
  validate_pay_params (setitem Examples.pay_bag "language" (VStr "ro"))
    REQUIRED_PAY_PARAMS = Ok true.
Proof.
  destruct (string_length_rules "language" (fun n => n =? 2) "ro"
              Examples.pay_bag REQUIRED_PAY_PARAMS) as (H & _).
  - cbn. auto.
  - apply H; reflexivity.
Defined.

(** X8.  For amount, confirmAmount, refundAmount and delivery, a float or
    an int that does not compare below the minimum is accepted: a bag that
    validates still validates with such a value in the field.  The test
    is the comparison [value < minimum] alone, so NaN, positive infinity
    and [True] are accepted in each of these fields. *)
Theorem numbers_not_below_minimum_pass
    (field : string) (bound v : pyval) (data : dict) (required : list string) :
  In (field, bound) minimum_bounds ->
  isinstance_float_int v = true -> num_lt v bound = false ->
  (validate_pay_params data required = Ok true ->
   validate_pay_params (setitem data field v) required = Ok true)
  /\ num_lt (VFloat S754_nan) bound = false
  /\ num_lt (VFloat (S754_infinity false)) bound = false
  /\ num_lt (VBool true) bound = false.
Proof.
  intros Hin Hnum Hlt. split.
  - apply validate_pay_params_setitem_ok.
    + destruct v; try discriminate Hnum; reflexivity.
    + cbn in Hin.
      destruct Hin as [H|[H|[H|[H|[]]]]]; injection H as <- <-; cbn;
        rewrite Hnum, Hlt; reflexivity.
  - cbn in Hin.
    destruct Hin as [H|[H|[H|[H|[]]]]]; injection H as _ <-;
      repeat split.
Qed.

(** X8 at a NaN amount in a bag for [pay]. *)
Lemma numbers_not_below_minimum_witness :
  validate_pay_params (setitem Examples.pay_bag "amount" (VFloat S754_nan))
    REQUIRED_PAY_PARAMS = Ok true.
Proof.
  destruct (numbers_not_below_minimum_pass "amount" (VInt 1)
              (VFloat S754_nan) Examples.pay_bag REQUIRED_PAY_PARAMS)
    as (H & _).
  - left. reflexivity.
  - reflexivity.
  - reflexivity.
  - apply H. reflexivity.
Defined.

(** X9.  An element of items that is not a dict makes validation raise
    AttributeError (from [item.get]), which is no MaibPaymentException,
    when nothing checked before items is violated and the elements before
    it are valid. *)
Theorem item_that_is_no_object_raises_attribute_error
    (data : dict) (required : list string) (pre post : list pyval)
    (item : pyval) :
  dict_get data "items" = VList (pre ++ item :: post) ->
  is_dict item = false ->
  no_violation_before data required "items" ->
  Forall (fun i => validate_item i = Ok tt) pre ->
  validate_pay_params data required = Raise AttributeError.
Proof.
  intros Hget Hitem Hpre Hok.
  apply (validate_pay_params_at data required "items");
    [cbn; intuition | exact Hpre |].
  unfold field_constraint. cbn [fst snd]. rewrite Hget.
  cbn [if_not_none is_none negb]. unfold rule_of.
  cbn [rule_in field_rules String.eqb Ascii.eqb Bool.eqb].
  cbn [isinstance_list negb orb len_of len].
  replace (Z.of_nat (List.length (pre ++ item :: post)) =? 0) with false.
  - cbn [raise_if bind for_items].
    rewrite (validate_items_skip pre _ Hok). cbn [validate_items].
    rewrite (validate_item_not_dict item Hitem). reflexivity.
  - symmetry. apply Z.eqb_neq. rewrite length_app. cbn [List.length]. lia.
Qed.

(** X9 at items holding one string. *)
Lemma item_that_is_no_object_witness :
  validate_pay_params (setitem Examples.pay_bag "items" (VList [VStr "x"]))
    REQUIRED_PAY_PARAMS = Raise AttributeError.
Proof.
  apply (item_that_is_no_object_raises_attribute_error _ _ [] [] (VStr "x")).
  - reflexivity.
  - reflexivity.
  - unfold no_violation_before. cbn. repeat constructor.
  - constructor.
Defined.

(** X10.  Validation reads only the nineteen fields it has a rule for, and
    every required parameter of every operation is one of them: setting
    any other field of the bag, to any value, leaves the outcome of
    validation as it was. *)
Theorem unknown_fields_are_not_validated
    (op : pay_operation) (data : dict) (field : string) (v : pyval) :
  ~ In field (map fst field_rules) ->
  (forall param,
     In param (required_params_of op) -> In param (map fst field_rules))
  /\ validate_pay_params (setitem data field v) (required_params_of op)
     = validate_pay_params data (required_params_of op).
Proof.
  intros Hunknown.
  assert (Hreq : forall param,
             In param (required_params_of op) ->
             In param (map fst field_rules)).
  { intros param. destruct op; cbn; intuition. }
  split; [exact Hreq|].
  apply validate_pay_params_frame; [exact Hunknown|].
  intros Hin. apply Hunknown, Hreq, Hin.
Qed.

(** X10 at a field [note] added to a bag for [pay]. *)
Lemma unknown_fields_witness :
  validate_pay_params (setitem Examples.pay_bag "note" (VInt 7))
    (required_params_of pay)
  = validate_pay_params Examples.pay_bag (required_params_of pay).
Proof.
  apply (unknown_fields_are_not_validated pay Examples.pay_bag "note"
           (VInt 7)).
  cbn. intuition discriminate.
Defined.

(** X11.  An operation with a parameter bag, on any client: when
    validation of the bag or of the token raises, no request is sent.  A
    MaibPaymentException of the validation comes back with its message
    after [Invalid request: ]; a bag that validates with a null or empty
    token gives the invalid-token error in the same wrapping. *)
Theorem rejected_call_sends_nothing
    (text : exn -> string) (self : Api.client) (op : pay_operation)
    (data : dict) (token : pyval) (sent : Http.log) :
  let outcome := Api.call text self op data token sent in
  let checked := validate_pay_params data (required_params_of op) in
  (forall msg,
     checked = Raise (MaibPaymentException msg) ->
     outcome
     = (Raise (MaibPaymentException (Api.invalid_request_msg msg)), sent))
  /\ (forall e, checked = Raise e -> snd outcome = sent)
  /\ (checked = Ok true -> token = VNone \/ token = VStr "" ->
      outcome
      = (Raise (MaibPaymentException (Api.invalid_request_msg token_msg)),
         sent))
  /\ (forall e, validate_access_token token = Raise e -> snd outcome = sent).
Proof.
  intros outcome checked. subst outcome checked.
  rewrite call_execute. unfold Api.execute_pay_operation.
  split; [|split; [|split]].
  - intros msg ->. reflexivity.
  - intros e ->. reflexivity.
  - intros -> [->| ->]; reflexivity.
  - intros e Htoken.
    destruct (validate_pay_params data (required_params_of op)) as [v|e'];
      cbn [bind]; [|reflexivity].
    rewrite Htoken. reflexivity.
Qed.

(** X12.  With a bag that validates and a non-empty token, each of the
    eight operations with a bag, on the client of either factory, sends
    exactly one request, whatever the network answers: POST to the base
    URL followed by the endpoint of the operation, the bag as JSON body,
    the header [Authorization: Bearer <token>] and a timeout of 30. *)
Theorem accepted_call_sends_one_request
    (older : bool) (text : exn -> string) (repr : pyval -> string)
    (http : Http.request -> result Http.response)
    (op : pay_operation) (data : dict) (token : string) (sent : Http.log) :
  validate_pay_params data (required_params_of op) = Ok true ->
  token <> "" ->
  snd (Api.call text (created older repr http) op data (VStr token) sent)
  = sent ++ [request_of "POST" (endpoint_of op) (VDict data) token].
Proof.
  intros Hvalid Htoken. rewrite call_execute.
  unfold Api.execute_pay_operation. rewrite Hvalid. cbn [bind].
  rewrite (validate_access_token_str token Htoken).
  unfold Api.send_request.
  rewrite (created_send older repr http "POST" _ _ token sent Htoken).
  destruct (http _) as [response|ex]; [|reflexivity].
  destruct (negb older && negb (Http.ok response)); [reflexivity|].
  destruct (Http.body response); reflexivity.
Qed.

(** X12 at [pay] with the token [t]. *)
Lemma accepted_call_sends_one_request_witness :
  snd (Api.call no_text (created false Signature.no_repr granting_http)
         pay Examples.pay_bag (VStr "t") [])
  = [request_of "POST" "pay" (VDict Examples.pay_bag) "t"].
Proof.
  apply (accepted_call_sends_one_request false no_text Signature.no_repr
           granting_http pay Examples.pay_bag "t" []);
    [reflexivity | discriminate].
Defined.

(** X13.  With a bag that validates and a non-empty token: an exception of
    the network, or of the parsing of the body, comes back as a
    MaibPaymentException [Invalid request: HTTP error while sending POST
    request to endpoint ...]; a parsed body is handed to
    [handle_response], whose MaibPaymentException is wrapped in [Invalid
    request: ] and whose result is returned.  For the client of
    [MaibApiRequest] the last two need a status below 400. *)
Theorem accepted_call_outcome
    (older : bool) (text : exn -> string) (repr : pyval -> string)
    (http : Http.request -> result Http.response)
    (op : pay_operation) (data : dict) (token : string) (sent : Http.log) :
  validate_pay_params data (required_params_of op) = Ok true ->
  token <> "" ->
  let self := created older repr http in
  let endpoint := endpoint_of op in
  let rq := request_of "POST" endpoint (VDict data) token in
  let outcome := fst (Api.call text self op data (VStr token) sent) in
  let http_error ex :=
    Raise (MaibPaymentException
             (Api.invalid_request_msg
                (Api.http_error_msg "POST" endpoint (Api.str_exn text ex)))) in
  (forall ex, http rq = Raise ex -> outcome = http_error ex)
  /\ (forall response ex,
        http rq = Ok response -> Http.body response = Raise ex ->
        older = true \/ Http.ok response = true ->
        outcome = http_error ex)
  /\ (forall response envelope,
        http rq = Ok response -> Http.body response = Ok envelope ->
        older = true \/ Http.ok response = true ->
        outcome
        = Api.except_payment_exception
            (Api.client_handle_response self envelope endpoint)).
Proof.
  intros Hvalid Htoken self endpoint rq outcome http_error.
  subst outcome self. rewrite call_execute.
  unfold Api.execute_pay_operation. rewrite Hvalid. cbn [bind].
  rewrite (validate_access_token_str token Htoken).
  unfold Api.send_request.
  rewrite (created_send older repr http "POST" _ _ token sent Htoken).
  fold endpoint. fold rq.
  split; [|split].
  - intros ex ->. reflexivity.
  - intros response ex -> Hbody Hok.
    replace (negb older && negb (Http.ok response)) with false.
    + rewrite Hbody. reflexivity.
    + destruct Hok as [-> | ->]; [reflexivity | destruct older; reflexivity].
  - intros response envelope -> Hbody Hok.
    replace (negb older && negb (Http.ok response)) with false.
    + rewrite Hbody. reflexivity.
    + destruct Hok as [-> | ->]; [reflexivity | destruct older; reflexivity].
Qed.

(** X13 at [pay] against a network that answers with a result. *)
Lemma accepted_call_outcome_witness :
  fst (Api.call no_text (created false Signature.no_repr granting_http)
         pay Examples.pay_bag (VStr "t") [])
  = Ok (VDict [("payId", VStr "p1")]).
Proof.
  destruct (accepted_call_outcome false no_text Signature.no_repr
              granting_http pay Examples.pay_bag "t" [])
    as (_ & _ & H); [reflexivity | discriminate |].
  rewrite (H _ _ eq_refl eq_refl); [reflexivity | right; reflexivity].
Defined.

(** X14.  On a response whose status is an error (400 and above) and whose
    body parses: the client of [MaibApiRequest] drops the body, its
    [send_request] returns None and [handle_response] raises
    AttributeError on it, so the error of the gateway is lost; the client
    of [MAIBAPIRequest] hands the body to its [handle_response]. *)
Theorem status_not_ok_variants
    (text : exn -> string) (repr : pyval -> string)
    (http : Http.request -> result Http.response)
    (op : pay_operation) (data : dict) (token : string) (sent : Http.log)
    (response : Http.response) (envelope : pyval) :
  validate_pay_params data (required_params_of op) = Ok true ->
  token <> "" ->
  http (request_of "POST" (endpoint_of op) (VDict data) token)
  = Ok response ->
  Http.ok response = false ->
  Http.body response = Ok envelope ->
  fst (Api.call text (created false repr http) op data (VStr token) sent)
  = Raise AttributeError
  /\ fst (Api.call text (created true repr http) op data (VStr token) sent)
     = Api.except_payment_exception
         (MAIBSDK.handle_response repr envelope (endpoint_of op)).
Proof.
  intros Hvalid Htoken Hhttp Hok Hbody.
  rewrite !call_execute. unfold Api.execute_pay_operation.
  rewrite Hvalid. cbn [bind].
  rewrite (validate_access_token_str token Htoken).
  unfold Api.send_request.
  rewrite !(created_send _ repr http "POST" _ _ token sent Htoken).
  rewrite Hhttp, Hok, Hbody. split; reflexivity.
Qed.

(** X14 at [pay] against a network that answers 402 with an error
    envelope. *)
Lemma status_not_ok_variants_witness :
  fst (Api.call no_text (created false Signature.no_repr refusing_http)
         pay Examples.pay_bag (VStr "t") [])
  = Raise AttributeError
  /\ fst (Api.call no_text (created true Signature.no_repr refusing_http)
            pay Examples.pay_bag (VStr "t") [])
     = Raise (MaibPaymentException
                "Invalid request: Error sending request to endpoint $endpoint: declined (12001)").
Proof.
  destruct (status_not_ok_variants no_text Signature.no_repr refusing_http
              pay Examples.pay_bag "t" []
              (Http.mk_response false
                 (Ok (VDict [("ok", VBool false);
                             ("errors",
                              VList [VDict [("errorCode", VStr "12001");
                                            ("errorMessage",
                                             VStr "declined")]])])))
              (VDict [("ok", VBool false);
                      ("errors",
                       VList [VDict [("errorCode", VStr "12001");
                                     ("errorMessage", VStr "declined")]])]))
    as [Hnew Holder];
    [reflexivity | discriminate | reflexivity | reflexivity | reflexivity |].
  split; [exact Hnew | rewrite Holder; reflexivity].
Defined.

(** X15.  [pay_info] and [delete_card], on the client of either factory:
    a null or empty id is refused with [Invalid request: Missing ID.] and
    a null or empty token with the invalid-token error, nothing being sent
    in either case; with a non-empty id and token one request is sent,
    GET [pay-info/<id>] or DELETE [delete-card/<id>] under the base URL,
    with no body and the bearer header. *)
Theorem entity_operations
    (older : bool) (text : exn -> string) (repr : pyval -> string)
    (http : Http.request -> result Http.response)
    (entity_id token : pyval) (sent : Http.log) :
  let self := created older repr http in
  let refused message :=
    (@Raise pyval (MaibPaymentException (Api.invalid_request_msg message)),
     sent) in
  (entity_id = VNone \/ entity_id = VStr "" ->
   Api.pay_info text self entity_id token sent = refused missing_id_msg
   /\ Api.delete_card text self entity_id token sent = refused missing_id_msg)
  /\ (forall i, entity_id = VStr i -> i <> "" ->
      token = VNone \/ token = VStr "" ->
      Api.pay_info text self entity_id token sent = refused token_msg
      /\ Api.delete_card text self entity_id token sent = refused token_msg)
  /\ (forall i t, entity_id = VStr i -> i <> "" ->
      token = VStr t -> t <> "" ->
      snd (Api.pay_info text self entity_id token sent)
      = sent ++ [request_of "GET" ("pay-info/" ++ i) VNone t]
      /\ snd (Api.delete_card text self entity_id token sent)
         = sent ++ [request_of "DELETE" ("delete-card/" ++ i) VNone t]).
Proof.
  intros self refused. subst self refused.
  unfold Api.pay_info, Api.delete_card.
  destruct (entity_operation_cases older text repr http MaibSdk.PAY_INFO
              "GET" entity_id token sent) as (P1 & P2 & P3).
  destruct (entity_operation_cases older text repr http MaibSdk.DELETE_CARD
              "DELETE" entity_id token sent) as (D1 & D2 & D3).
  split; [|split].
  - intros H. split; [apply P1 | apply D1]; exact H.
  - intros i Hid Hi Htoken. split; [eapply P2 | eapply D2]; eassumption.
  - intros i t Hid Hi Htoken Ht.
    split; [apply (P3 i t) | apply (D3 i t)]; assumption.
Qed.

(** X16.  [get_error_message]: the empty text gives the empty message and
    is not parsed; an exception of the parser is passed on; on a parsed
    object, errors absent, empty or starting with an empty object gives
    [Unknown error details.], errors starting with a non-empty object
    gives its errorMessage (None when it has none), errors null raises
    TypeError; IndexError is never raised. *)
Theorem get_error_message_cases
    (loads : string -> result pyval) (response : string) (parsed : dict) :
  Transport.get_error_message loads "" = Ok (VStr "")
  /\ (response <> "" -> forall ex,
      loads response = Raise ex ->
      Transport.get_error_message loads response = Raise ex)
  /\ (response <> "" -> loads response = Ok (VDict parsed) ->
      let message := Transport.get_error_message loads response in
      (lookup parsed "errors" = None \/ lookup parsed "errors" = Some (VList [])
       -> message = Ok (VStr "Unknown error details."))
      /\ (forall rest,
            lookup parsed "errors" = Some (VList (VDict [] :: rest)) ->
            message = Ok (VStr "Unknown error details."))
      /\ (forall error rest,
            lookup parsed "errors" = Some (VList (VDict error :: rest)) ->
            error <> [] ->
            message = Ok (dict_get error "errorMessage"))
      /\ (lookup parsed "errors" = Some VNone -> message = Raise TypeError)
      /\ message <> Raise IndexError).
Proof.
  split; [reflexivity|]. split.
  - intros Hne ex Hloads. unfold Transport.get_error_message.
    rewrite (CodecFacts.truthy_VStr _ Hne), Hloads. reflexivity.
  - intros Hne Hloads message. subst message.
    unfold Transport.get_error_message.
    rewrite (CodecFacts.truthy_VStr _ Hne), Hloads.
    cbn [bind Transport.get_default].
    split; [|split; [|split; [|split]]].
    + intros [-> | ->]; reflexivity.
    + intros rest ->. reflexivity.
    + intros error rest -> Herror. cbn [Transport.next_iter bind].
      rewrite (CodecFacts.truthy_VDict _ Herror). reflexivity.
    + intros ->. reflexivity.
    + destruct (lookup parsed "errors") as [errors|]; [|discriminate].
      destruct errors as [|b|n|f|s|l|d]; cbn [Transport.next_iter bind];
        try discriminate.
      * destruct s; cbn [bind truthy]; discriminate.
      * destruct l as [|v l]; cbn [bind truthy]; [discriminate|].
        destruct (truthy v); [|discriminate].
        destruct v; discriminate.
      * destruct d as [|[k v] d]; cbn [bind truthy]; [discriminate|].
        destruct (negb _); discriminate.
Qed.

(** X17.  [validate_callback_signature] of [maibsdk.py], on a callback with
    a non-empty signature and a result that is a dict: returns whether the
    signature equals the encoded digest of [str] of the values in key
    order and the key, joined by a colon.  The key and the result are not
    tested for emptiness, and a null value is signed as [None]. *)
Theorem older_validate_callback_signature
    (repr : pyval -> string) (callback_data result entries : dict)
    (signature secret : string) :
  signature <> "" ->
  lookup callback_data "signature" = Some (VStr signature) ->
  lookup callback_data "result" = Some (VDict result) ->
  Permutation entries result -> StronglySorted key_lt entries ->
  MAIBSDK.validate_callback_signature repr (VDict callback_data)
    (VStr secret)
  = Ok (String.eqb
          (MaibSdk.signature_of
             (String.concat ":"
                (map (fun kv => str repr (snd kv)) entries ++ [secret])))
          signature).
Proof.
  intros Hsig Hgs Hgr Hperm Hsorted.
  unfold MAIBSDK.validate_callback_signature, MAIBSDK.getitem.
  cbn [get bind]. unfold dict_get. rewrite Hgs, Hgr.
  rewrite (truthy_VStr _ Hsig). cbn [negb raise_if bind items].
  rewrite (sorted_entries _ _ Hperm Hsorted).
  rewrite values_dict_comprehension by (apply key_lt_NoDup, Hsorted).
  unfold join.
  replace (map (fun kv => VStr (str repr (snd kv))) entries ++ [VStr secret])
    with (map VStr (map (fun kv => str repr (snd kv)) entries ++ [secret])).
  - rewrite str_items_VStr. reflexivity.
  - rewrite map_app, map_map. reflexivity.
Qed.

(** X17 at a result with one null value, signed as [None:k]. *)
Lemma older_validate_callback_signature_witness :
  MAIBSDK.validate_callback_signature no_repr
    (VDict [("signature",
             VStr "crhNsY9DcCv0RAp8KF8QunA+GNpEu+EAaE9HNzuUlkI=");
            ("result", VDict [("a", VNone)])]) (VStr "k")
  = Ok true.
Proof.
  rewrite (older_validate_callback_signature no_repr _ [("a", VNone)]
             [("a", VNone)]
             "crhNsY9DcCv0RAp8KF8QunA+GNpEu+EAaE9HNzuUlkI=" "k").
  - vm_compute. reflexivity.
  - discriminate.
  - reflexivity.
  - reflexivity.
  - apply Permutation_refl.
  - repeat constructor.
Defined.

(** X18.  [validate_callback_signature] of [maibsdk.py], on a callback
    that is a dict, raises the SDK's error exactly when the signature is
    absent, null or empty, with the missing-signature message; the key and
    the result are not tested.  With a signature, a callback without
    result raises KeyError and a result that is no dict raises
    AttributeError. *)
Theorem older_validate_callback_signature_errors
    (repr : pyval -> string) (callback_data : dict) (signature_key : pyval) :
  let outcome :=
    MAIBSDK.validate_callback_signature repr (VDict callback_data)
      signature_key in
  (sdk_error outcome
   <-> truthy (dict_get callback_data "signature") = false)
  /\ (truthy (dict_get callback_data "signature") = false ->
      outcome = Raise (MaibPaymentException "Missing callback signature"))
  /\ (truthy (dict_get callback_data "signature") = true ->
      (lookup callback_data "result" = None -> outcome = Raise KeyError)
      /\ (forall v, lookup callback_data "result" = Some v ->
          is_dict v = false -> outcome = Raise AttributeError)).
Proof.
  intros outcome. subst outcome.
  unfold MAIBSDK.validate_callback_signature, MAIBSDK.getitem, sdk_error.
  cbn [get bind]. split; [|split].
  - destruct (truthy (dict_get callback_data "signature"));
      cbn [negb raise_if bind].
    2:{ split; [reflexivity | intros _; eexists; reflexivity]. }
    split; [|discriminate].
    intros [msg H]. exfalso. revert H.
    destruct (lookup callback_data "result") as [v|]; cbn [bind];
      [|discriminate].
    destruct (items v) as [its|e] eqn:Hits; cbn [bind].
    + destruct (join _ _) as [s|e] eqn:Hj; cbn [bind]; [discriminate|].
      rewrite (join_raises _ _ _ Hj). discriminate.
    + destruct v; cbn [items] in Hits;
        try (injection Hits as <-; discriminate). discriminate.
  - intros ->. reflexivity.
  - intros ->. cbn [negb raise_if bind]. split.
    + intros ->. reflexivity.
    + intros v -> Hv. destruct v; try reflexivity. discriminate.
Qed.

(** X19.  [handle_response] of [maibsdk.py] and of [maib_sdk.py] give the
    same outcome on every response but the gateway error: there the
    message of [maibsdk.py] holds the text [$endpoint] where that of
    [maib_sdk.py] holds the endpoint. *)
Theorem handle_response_variants
    (repr : pyval -> string) (response : pyval) (endpoint : string) :
  MAIBSDK.handle_response repr response endpoint
  = MaibSdk.handle_response repr response endpoint
  \/ exists message code,
       MaibSdk.handle_response repr response endpoint
       = Raise (MaibPaymentException
                  (MaibSdk.gateway_error_msg endpoint message code))
       /\ MAIBSDK.handle_response repr response endpoint
          = Raise (MaibPaymentException
                     (MaibSdk.gateway_error_msg "$endpoint" message code)).
Proof.
  unfold MAIBSDK.handle_response, MaibSdk.handle_response.
  destruct response as [|b|n|f|s|l|d]; try (left; reflexivity).
  cbn [get bind].
  destruct (negb (is_none (dict_get d "ok")) && is_True (dict_get d "ok"));
    [left; reflexivity|].
  destruct (negb (is_none (dict_get d "errors"))); [|left; reflexivity].
  destruct (first_item (dict_get d "errors")) as [error|e]; cbn [bind];
    [|left; reflexivity].
  destruct error as [|b|n|f|s|l|error]; try (left; reflexivity).
  cbn [get bind]. right. eexists. eexists. split; reflexivity.
Qed.

(** X20.  [generate_token]: with a project id and a secret the request is
    POST generate-token with both in the body; whenever one of the two is
    given exactly one request is sent, an exception of the client comes
    back as the HTTP-error MaibTokenException and a response is handed to
    [handle_response]; a MaibTokenException carries one of these two
    messages. *)
Theorem generate_token_exchange
    (repr : pyval -> string) (gateway : MAIBAuth.request -> result pyval)
    (project_id project_secret : pyval) (sent : list MAIBAuth.request) :
  let outcome :=
    MAIBAuth.generate_token repr gateway project_id project_secret sent in
  (project_id <> VNone -> project_secret <> VNone ->
   snd outcome
   = sent ++ [MAIBAuth.mk_request "POST" "generate-token"
                [("projectId", project_id);
                 ("projectSecret", project_secret)]])
  /\ (is_none project_id && is_none project_secret = false ->
      exists rq,
        snd outcome = sent ++ [rq]
        /\ MAIBAuth.method rq = "POST"
        /\ MAIBAuth.url rq = "generate-token"
        /\ (forall ex, gateway rq = Raise ex ->
            fst outcome = Raise (MaibTokenException MAIBAuth.http_error_msg))
        /\ (forall response, gateway rq = Ok response ->
            fst outcome
            = MAIBSDK.handle_response repr response "generate-token"))
  /\ (forall msg,
        fst outcome = Raise (MaibTokenException msg) ->
        msg = MAIBAuth.required_msg \/ msg = MAIBAuth.http_error_msg).
Proof.
  intros outcome. subst outcome.
  unfold MAIBAuth.generate_token, MAIBAuth.send_request.
  split; [|split].
  - intros Hid Hsecret.
    destruct project_id, project_secret; try congruence;
      cbn [is_none andb negb setitem String.eqb Ascii.eqb Bool.eqb];
      destruct (gateway _); reflexivity.
  - intros Hnone. rewrite Hnone.
    match goal with
    | |- context [gateway ?r] => exists r
    end.
    destruct (negb (is_none project_id) && negb (is_none project_secret));
      [|destruct (negb (is_none project_id) && is_none project_secret)];
      (split; [destruct (gateway _); reflexivity|]);
      (split; [reflexivity|]); (split; [reflexivity|]);
      (split; [intros ex ->; reflexivity | intros response ->; reflexivity]).
  - intros msg.
    destruct (is_none project_id && is_none project_secret); cbn [fst].
    + intros H. injection H as <-. left. reflexivity.
    + destruct (gateway _) as [response|ex]; cbn [fst]; intros H.
      * elim (handle_response_not_token_exception _ _ _ _ H).
      * injection H as <-. right. reflexivity.
Qed.
